(** * Document preview pipeline: conversion engine, execution host,
      progress reporter and windowed renderer

    A shallow embedding of [js/parser.worker.js] and
    [js/optimized-parsing.js].

    Conventions of the embedding.
    - A JavaScript string is a [string] holding its UTF-8 encoding; the
      five characters handled by [escapeHtml] and all markup written by
      the templates are ASCII, so replacing bytes and replacing UTF-16
      code units agree.  [js_length] recovers the UTF-16 length that
      [String.prototype.length] returns.
    - A JavaScript number that the code only uses as an integer (loop
      index, percentage, pixel offset, array index) is a [Z].  The single
      fractional computation, [(i / totalSheets) * 60], is carried out on
      rationals with each operation rounded to the nearest double
      ([Double.fl]).
    - [postMessage], [updateProgressIndicator], [renderParsedContent] and
      [handleParsingError] are effects: a run of the code is the list of
      the effects it performed, in order, together with how it completed
      (normally or by throwing).
    - The parsing libraries (SheetJS, pptx-parser) and the layout engine
      of the browser are collaborators: section variables, or fields of
      the input they were applied to. *)

From Stdlib Require Import Ascii QArith Qround Qpower Lia Lqa.
From stdpp Require Import base strings list gmap pretty.

Local Open Scope string_scope.
Local Open Scope list_scope.
Local Open Scope Z_scope.

(** ** JavaScript strings *)

Module Js.

(** The double quote, kept out of the literals. *)
Definition dq : string := String (ascii_of_nat 34) "".
Definition nl : string := String (ascii_of_nat 10) "".

Fixpoint spaces (n : nat) : string :=
  match n with
  | O => ""
  | S k => String " " (spaces k)
  end.

(** A line break followed by [n] blanks, as inside a template literal. *)
Definition indent (n : nat) : string := nl +:+ spaces n.

(** [attr "class" "x"] is [class="x"]. *)
Definition attr (name value : string) : string :=
  name +:+ "=" +:+ dq +:+ value +:+ dq.

(** Number of UTF-16 code units of the string whose UTF-8 encoding is
    given: a continuation byte (10xxxxxx) adds nothing, the lead byte of a
    four-byte sequence (11110xxx) stands for a surrogate pair. *)
Definition utf16_units (c : ascii) : Z :=
  let n := Z.of_nat (nat_of_ascii c) in
  if (128 <=? n) && (n <? 192) then 0
  else if 240 <=? n then 2
  else 1.

Fixpoint js_length (s : string) : Z :=
  match s with
  | EmptyString => 0
  | String c r => utf16_units c + js_length r
  end.

(** [s.replace(/c/g, by)] for a one-character pattern. *)
Fixpoint replace_all (c : ascii) (by_ : string) (s : string) : string :=
  match s with
  | EmptyString => EmptyString
  | String x r =>
      if Ascii.eqb x c then by_ +:+ replace_all c by_ r
      else String x (replace_all c by_ r)
  end.

(** [Number.isSafeInteger(n)]: the integers that a double holds exactly. *)
Definition safe_integer (n : Z) : Prop :=
  - 9007199254740991 <= n <= 9007199254740991.

(** [` ${n} `] for a safe integer [n]: its decimal digits, after a minus
    sign when it is negative.  (A larger number is printed from the
    shortest digits that read back as the same double, and from 10^21 on
    with an exponent; the counts and indices printed by the templates are
    array lengths, far below that, and a statement about an arbitrary
    number carries [safe_integer] as a hypothesis.) *)
Definition show (n : Z) : string := pretty n.

(** [s.includes(sub)]. *)
Fixpoint includes_from (fuel : nat) (sub s : string) : bool :=
  if String.prefix sub s then true
  else match fuel, s with
       | S k, String _ r => includes_from k sub r
       | _, _ => false
       end.

Definition includes (sub s : string) : bool :=
  includes_from (String.length s) sub s.

(** Number of positions of [s] at which [sub] occurs. *)
Fixpoint occurrences (sub s : string) : nat :=
  match s with
  | EmptyString => O
  | String _ r =>
      ((if String.prefix sub s then 1 else 0) + occurrences sub r)%nat
  end.

(** Whether the character [c] occurs in [s]. *)
Fixpoint has_char (c : ascii) (s : string) : bool :=
  match s with
  | EmptyString => false
  | String x r => Ascii.eqb x c || has_char c r
  end.

(** Truthiness of a string: only the empty string is falsy. *)
Definition truthy (s : string) : bool :=
  match s with EmptyString => false | _ => true end.

End Js.

(** ** Completions and effect traces *)

(** How a piece of JavaScript completes: normally with a value, or by
    throwing an [Error] whose [message] is recorded. *)
Inductive completion (A : Type) : Type :=
  | Normal (a : A)
  | Throw (message : string).
Arguments Normal {A} a.
Arguments Throw {A} message.

(** A computation that performs effects of type [E] and completes. *)
Definition eff (E A : Type) : Type := (list E * completion A)%type.

Definition ret {E A} (a : A) : eff E A := ([], Normal a).
Definition throw {E A} (message : string) : eff E A := ([], Throw message).
Definition emit {E} (e : E) : eff E unit := ([e], Normal tt).
Definition lift {E A} (c : completion A) : eff E A := ([], c).

Definition bind {E A B} (m : eff E A) (k : A -> eff E B) : eff E B :=
  match m with
  | (tr, Normal a) => let '(tr', r) := k a in (tr ++ tr', r)
  | (tr, Throw msg) => (tr, Throw msg)
  end.

(** [try { m } catch (error) { h error.message }] *)
Definition try_catch {E A} (m : eff E A) (h : string -> eff E A) : eff E A :=
  match m with
  | (tr, Normal a) => (tr, Normal a)
  | (tr, Throw msg) => let '(tr', r) := h msg in (tr ++ tr', r)
  end.

Definition trace_of {E A} (m : eff E A) : list E := fst m.
Definition outcome_of {E A} (m : eff E A) : completion A := snd m.

Notation "'let*' x := m 'in' k" := (bind m (fun x => k))
  (at level 10, x name, m at level 100, k at level 200).
Notation "'perform' m 'then' k" := (bind m (fun _ => k))
  (at level 10, m at level 100, k at level 200).

(** ** Double precision arithmetic on the values the engine divides *)

Module Double.

(** Round to the nearest integer, ties to even. *)
Definition rne (q : Q) : Z :=
  let f := Qfloor q in
  match ((q - inject_Z f) ?= (1 # 2))%Q with
  | Lt => f
  | Gt => f + 1
  | Eq => if Z.even f then f else f + 1
  end.

(** [2 ^ e] as a rational, for any integer [e]. *)
Definition pow2 (e : Z) : Q := (2 ^ e)%Q.

(** The exponent [e] with [2^52 <= a/b / 2^e < 2^53], for positive [a/b]. *)
Definition exponent (a b : positive) : Z :=
  let e0 := Z.log2 (Zpos a) - Z.log2 (Zpos b) - 53 in
  if Qle_bool (pow2 (e0 + 53)) (Zpos a # b) then e0 + 1 else e0.

(** The double nearest to a positive rational (53 bits of precision,
    round to nearest, ties to even).  Overflow and subnormal numbers do not
    arise on the quotients and products formed here: the operands are an
    index below an array length, an array length and the constant 60. *)
Definition fl_pos (a b : positive) : Q :=
  let e := exponent a b in
  (inject_Z (rne ((Zpos a # b) / pow2 e)) * pow2 e)%Q.

Definition fl (q : Q) : Q :=
  match Qnum q with
  | Z0 => 0%Q
  | Zpos a => fl_pos a (Qden q)
  | Zneg a => (- fl_pos a (Qden q))%Q
  end.

(** [x / y] and [x * y] on doubles. *)
Definition div (x y : Q) : Q := fl (x / y).
Definition mul (x y : Q) : Q := fl (x * y).

(** [Math.round]: the nearest integer, ties towards positive infinity. *)
Definition Math_round (x : Q) : Z := Qfloor (x + (1 # 2)).

End Double.


(** ** Data model *)

(** A text run of a slide: [{ level, content }]. *)
Record TextRun : Type := { level : Z; content : string }.

(** A slide; [text] is [None] when the property is absent (or otherwise
    falsy), [Some runs] when it is an array. *)
Record Slide : Type := { text : option (list TextRun) }.

Record Presentation : Type := { slides : list Slide }.

(** A workbook as SheetJS returns it: the ordered sheet names and the
    object mapping a name to its worksheet. *)
Record Workbook (Worksheet : Type) : Type :=
  { SheetNames : list string; Sheets : gmap string Worksheet }.
Arguments SheetNames {Worksheet} _.
Arguments Sheets {Worksheet} _.

(** The parsing collaborators.  Each is a total function to a completion:
    a call returns or throws.  [sheet_to_html] receives
    [workbook.Sheets[sheetName]], which is [undefined] ([None]) when the
    name has no entry. *)
Class Parsers (ArrayBuffer Worksheet : Type) : Type :=
  { XLSX_read : ArrayBuffer -> completion (Workbook Worksheet);
    sheet_to_html : option Worksheet -> completion string;
    PptxParser_parse : ArrayBuffer -> completion Presentation }.

(** Messages from the worker to the page. *)
Inductive WorkerMessage : Type :=
  | MsgProgress (progress : Z)
  | MsgXlsxResult (html : string)
  | MsgPptxResult (html : string)
  | MsgError (error : string).

(** What the worker does: post a message, or pause on a timer. *)
Inductive WorkerEffect : Type :=
  | PostMessage (m : WorkerMessage)
  | SetTimeout (ms : Z).

(** What the page does: the calls of [updateProgressIndicator],
    [renderParsedContent] and [handleParsingError], and the suspensions on
    [requestIdleCallback]. *)
Inductive PageEffect : Type :=
  | UpdateProgress (percent : Z)
  | RenderParsedContent (html : string)
  | HandleParsingError (message : string)
  | IdleCallback.

(** ** parser.worker.js *)

(** [escapeHtml]: the five replacements, in the order of the source. *)
Definition escapeHtml (unsafe : string) : string :=
  if negb (Js.truthy unsafe) then ""
  else
    Js.replace_all "'" "&#039;"
      (Js.replace_all (ascii_of_nat 34) "&quot;"
        (Js.replace_all ">" "&gt;"
          (Js.replace_all "<" "&lt;"
            (Js.replace_all "&" "&amp;" unsafe)))).

(** [20 + Math.round((i / totalSheets) * 60)] *)
Definition sheet_progress (i totalSheets : Z) : Z :=
  20 + Double.Math_round
         (Double.mul (Double.div (inject_Z i) (inject_Z totalSheets)) 60).

(** The block appended for worksheet [i] (0-based), lines 77-83. *)
Definition worksheet_block (i : Z) (sheetName html : string) : string :=
  Js.indent 16 +:+ "<div " +:+ Js.attr "class" "worksheet-container" +:+ ">" +:+
  Js.indent 20 +:+ "<h4>工作表 " +:+ Js.show (i + 1) +:+ ": " +:+ sheetName +:+ "</h4>" +:+
  Js.indent 20 +:+ "<div " +:+ Js.attr "class" "table-wrapper" +:+ ">" +:+ html +:+ "</div>" +:+
  Js.indent 16 +:+ "</div>" +:+
  Js.indent 16 +:+ "<hr>" +:+
  Js.indent 12.

Definition xlsx_header (totalSheets : Z) : string :=
  "<div " +:+ Js.attr "class" "xlsx-content" +:+ ">" +:+
  "<h3>Excel文档: " +:+ Js.show totalSheets +:+ " 个工作表</h3>".

(** The tag of a text run and its markup. *)
Definition run_tag (lv : Z) : string :=
  if lv =? 0 then "h5" else if lv =? 1 then "h6" else "p".

Definition run_html (t : TextRun) : string :=
  let tag := run_tag (level t) in
  "<" +:+ tag +:+ " " +:+ Js.attr "class" ("slide-text level-" +:+ Js.show (level t)) +:+ ">" +:+
  escapeHtml (content t) +:+ "</" +:+ tag +:+ ">".

Definition no_content : string :=
  "<p " +:+ Js.attr "class" "no-content" +:+ ">此幻灯片没有可提取的文本内容</p>".

Definition has_runs (runs : list TextRun) : bool :=
  0 <? Z.of_nat (length runs).

(** The two appends that open the slide at [index] (0-based), lines
    141-142. *)
Definition slide_open (index : Z) : string :=
  ("<div " +:+ Js.attr "class" ("slide slide-" +:+ Js.show (index + 1)) +:+ ">") +:+
  ("<h4>幻灯片 " +:+ Js.show (index + 1) +:+ "</h4>").

Definition slide_content_open : string :=
  "<div " +:+ Js.attr "class" "slide-content" +:+ ">".

(** What the [if (slide.text && slide.text.length > 0)] statement appends,
    lines 144-157. *)
Definition slide_body (slide : Slide) : string :=
  match text slide with
  | Some runs =>
      if has_runs runs then
        slide_content_open +:+
        fold_left (fun htmlContent t => htmlContent +:+ run_html t) runs "" +:+
        "</div>"
      else no_content
  | None => no_content
  end.

(** The markup appended for the slide at [index]: the body of the outer
    [forEach], lines 141-159. *)
Definition slide_html (index : Z) (slide : Slide) : string :=
  slide_open index +:+ slide_body slide +:+ "</div><hr>".

(** [presentation.slides.forEach((slide, index) => ...)] on the
    accumulated [htmlContent]. *)
Fixpoint slides_forEach (l : list Slide) (index : Z) (htmlContent : string) : string :=
  match l with
  | [] => htmlContent
  | slide :: rest =>
      slides_forEach rest (index + 1) (htmlContent +:+ slide_html index slide)
  end.

Definition pptx_header (n : Z) : string :=
  "<div " +:+ Js.attr "class" "pptx-content" +:+ ">" +:+
  "<h3>PowerPoint文档: " +:+ Js.show n +:+ " 张幻灯片</h3>".

Section Worker.
Context {ArrayBuffer Worksheet : Type} `{!Parsers ArrayBuffer Worksheet}.

Definition post (m : WorkerMessage) : eff WorkerEffect unit :=
  emit (PostMessage m).

(** The [for] loop of [parseXlsx], from index [i] on; [names] are the
    sheet names not yet visited. *)
Fixpoint parseXlsx_loop (workbook : Workbook Worksheet) (totalSheets : Z)
    (names : list string) (i : Z) (htmlContent : string)
    : eff WorkerEffect string :=
  match names with
  | [] => ret htmlContent
  | sheetName :: rest =>
      perform post (MsgProgress (sheet_progress i totalSheets)) then
      let* html := lift (sheet_to_html (Sheets workbook !! sheetName)) in
      let htmlContent := htmlContent +:+ worksheet_block i sheetName html in
      perform emit (SetTimeout 10) then
      parseXlsx_loop workbook totalSheets rest (i + 1) htmlContent
  end.

Definition parseXlsx (arrayBuffer : ArrayBuffer) : eff WorkerEffect unit :=
  try_catch
    (perform post (MsgProgress 10) then
     let* workbook := lift (XLSX_read arrayBuffer) in
     perform post (MsgProgress 20) then
     let totalSheets := Z.of_nat (length (SheetNames workbook)) in
     let htmlContent := xlsx_header totalSheets in
     let* htmlContent :=
       parseXlsx_loop workbook totalSheets (SheetNames workbook) 0 htmlContent in
     let htmlContent := htmlContent +:+ "</div>" in
     perform post (MsgProgress 100) then
     post (MsgXlsxResult htmlContent))
    (fun message => throw ("Excel解析失败: " +:+ message)).

Definition parsePptx (arrayBuffer : ArrayBuffer) : eff WorkerEffect unit :=
  try_catch
    (perform post (MsgProgress 10) then
     perform post (MsgProgress 30) then
     let* presentation := lift (PptxParser_parse arrayBuffer) in
     perform post (MsgProgress 60) then
     let htmlContent :=
       pptx_header (Z.of_nat (length (slides presentation))) in
     let htmlContent := slides_forEach (slides presentation) 0 htmlContent in
     let htmlContent := htmlContent +:+ "</div>" in
     perform post (MsgProgress 100) then
     post (MsgPptxResult htmlContent))
    (fun message => throw ("PowerPoint解析失败: " +:+ message)).

(** [error.message || '...'] *)
Definition message_or_default (message : string) : string :=
  if Js.truthy message then message else "解析过程中发生未知错误".

(** [self.onmessage] for a message [{ type, arrayBuffer, fileSize }]. *)
Definition worker_onmessage (type : string) (arrayBuffer : ArrayBuffer)
    : eff WorkerEffect unit :=
  try_catch
    (if String.eqb type "parse-xlsx" then parseXlsx arrayBuffer
     else if String.eqb type "parse-pptx" then parsePptx arrayBuffer
     else throw ("不支持的解析类型: " +:+ type))
    (fun message => post (MsgError (message_or_default message))).

End Worker.

(** ** optimized-parsing.js: the execution host *)

(** What [new Worker('/js/parser.worker.js')] gives on the platform at
    hand.  [Started boot]: the worker exists and the top level of its
    script ([importScripts]) completed as [boot]; when it threw, the error
    is uncaught in the worker and reaches [worker.onerror]. *)
Inductive WorkerPlatform : Type :=
  | Unsupported
  | ConstructorThrows
  | Started (boot : completion unit).

(** [createParserWorker]: [null] without [window.Worker] or when the
    constructor throws. *)
Definition createParserWorker (platform : WorkerPlatform) : option (completion unit) :=
  match platform with
  | Unsupported => None
  | ConstructorThrows => None
  | Started boot => Some boot
  end.

(** The [error] property of a worker message ([undefined] when absent). *)
Definition error_field (m : WorkerMessage) : option string :=
  match m with
  | MsgError e => Some e
  | _ => None
  end.

(** [worker.onmessage] *)
Definition host_onmessage (m : WorkerMessage) : list PageEffect :=
  match error_field m with
  | Some error =>
      if Js.truthy error then [HandleParsingError error] else []
  | None =>
      match m with
      | MsgXlsxResult html => [RenderParsedContent html]
      | MsgPptxResult html => [RenderParsedContent html]
      | MsgProgress progress => [UpdateProgress progress]
      | MsgError _ => []
      end
  end.

(** [worker.onerror], for an error event with the given [message]. *)
Definition host_onerror (message : string) : list PageEffect :=
  [HandleParsingError ("解析失败: " +:+ message)].

(** The page's view of what the worker did: each posted message runs
    [worker.onmessage]; timers are internal to the worker. *)
Definition deliver (e : WorkerEffect) : list PageEffect :=
  match e with
  | PostMessage m => host_onmessage m
  | SetTimeout _ => []
  end.

(** What the page sees of a computation of the worker. *)
Definition worker_view {A} (m : eff WorkerEffect A) : list PageEffect :=
  flat_map deliver (trace_of m).

(** The message of the [ReferenceError] thrown when an identifier that no
    script declares is evaluated (wording of V8 and SpiderMonkey). *)
Definition ReferenceError (name : string) : string :=
  name +:+ " is not defined".

Section Host.
Context {ArrayBuffer Worksheet : Type} `{!Parsers ArrayBuffer Worksheet}.

(** The [for] loop of [parseXlsxInChunks]. *)
Fixpoint parseXlsxInChunks_loop (workbook : Workbook Worksheet) (totalSheets : Z)
    (names : list string) (i : Z) (htmlContent : string)
    : eff PageEffect string :=
  match names with
  | [] => ret htmlContent
  | sheetName :: rest =>
      perform emit (UpdateProgress (sheet_progress i totalSheets)) then
      perform emit IdleCallback then
      let* html := lift (sheet_to_html (Sheets workbook !! sheetName)) in
      let htmlContent := htmlContent +:+ worksheet_block i sheetName html in
      parseXlsxInChunks_loop workbook totalSheets rest (i + 1) htmlContent
  end.

(** [parseXlsxInChunks(arrayBuffer, progressCallback)] with the callback
    that [parseLargeFile] passes; the result is the [value] field. *)
Definition parseXlsxInChunks (arrayBuffer : ArrayBuffer) : eff PageEffect string :=
  try_catch
    (perform emit (UpdateProgress 10) then
     let* workbook := lift (XLSX_read arrayBuffer) in
     perform emit (UpdateProgress 20) then
     let totalSheets := Z.of_nat (length (SheetNames workbook)) in
     let htmlContent := xlsx_header totalSheets in
     let* htmlContent :=
       parseXlsxInChunks_loop workbook totalSheets (SheetNames workbook) 0 htmlContent in
     let htmlContent := htmlContent +:+ "</div>" in
     perform emit (UpdateProgress 100) then
     ret htmlContent)
    (fun message => throw message).

(** The chunked parsers that the scripts of the page declare, by name. *)
Definition script_globals : gmap string (ArrayBuffer -> eff PageEffect string) :=
  {[ "parseXlsxInChunks" := parseXlsxInChunks ]}.

(** A call [name(arrayBuffer, ...)] of a global function. *)
Definition call_global (globals : gmap string (ArrayBuffer -> eff PageEffect string))
    (name : string) (arrayBuffer : ArrayBuffer) : eff PageEffect string :=
  match globals !! name with
  | Some f => f arrayBuffer
  | None => throw (ReferenceError name)
  end.

(** The main-thread branch of [parseLargeFile], lines 73-92. *)
Definition fallback (globals : gmap string (ArrayBuffer -> eff PageEffect string))
    (arrayBuffer : ArrayBuffer) (docType : string) : eff PageEffect unit :=
  try_catch
    (let* value :=
       (if String.eqb docType "xlsx" then
          call_global globals "parseXlsxInChunks" arrayBuffer
        else if String.eqb docType "pptx" then
          call_global globals "parsePptxInChunks" arrayBuffer
        else throw ("不支持的文档类型: " +:+ docType)) in
     emit (RenderParsedContent value))
    (fun message => emit (HandleParsingError message)).

(** [parseLargeFile(arrayBuffer, docType, fileSize)]: everything the page
    does for one request. *)
Definition parseLargeFile_in (globals : gmap string (ArrayBuffer -> eff PageEffect string))
    (platform : WorkerPlatform) (arrayBuffer : ArrayBuffer) (docType : string)
    : list PageEffect :=
  match createParserWorker platform with
  | Some (Normal _) =>
      worker_view (worker_onmessage ("parse-" +:+ docType) arrayBuffer)
  | Some (Throw message) => host_onerror message
  | None => trace_of (fallback globals arrayBuffer docType)
  end.

Definition parseLargeFile := parseLargeFile_in script_globals.

End Host.

(** ** The observable outcome of a request *)

(** The progress percentages shown, in order. *)
Definition progress_of (e : PageEffect) : option Z :=
  match e with UpdateProgress p => Some p | _ => None end.

Definition progress_values (tr : list PageEffect) : list Z :=
  omap progress_of tr.

(** The terminal deliveries: a result or an error. *)
Definition is_result (e : PageEffect) : bool :=
  match e with RenderParsedContent _ => true | _ => false end.

Definition is_error (e : PageEffect) : bool :=
  match e with HandleParsingError _ => true | _ => false end.

Definition results (tr : list PageEffect) : list PageEffect := List.filter is_result tr.
Definition errors (tr : list PageEffect) : list PageEffect := List.filter is_error tr.

Definition is_idle (e : PageEffect) : bool :=
  match e with IdleCallback => true | _ => false end.

(** Number of voluntary suspensions. *)
Definition yields (tr : list PageEffect) : nat := length (List.filter is_idle tr).

(** The effects before the first terminal delivery. *)
Fixpoint before_terminal (tr : list PageEffect) : list PageEffect :=
  match tr with
  | [] => []
  | e :: rest =>
      if is_result e || is_error e then [] else e :: before_terminal rest
  end.

Fixpoint non_decreasing (l : list Z) : Prop :=
  match l with
  | [] => True
  | x :: rest =>
      match rest with
      | [] => True
      | y :: _ => x <= y
      end /\ non_decreasing rest
  end.

Definition terminal (e : PageEffect) : bool := is_result e || is_error e.

Definition quiet (tr : list PageEffect) : Prop :=
  Forall (fun e => terminal e = false) tr.

(** A run: quiet effects with non-decreasing percentages, then a single
    terminal delivery, which is a result only after 100 was shown. *)
Definition run_shape (tr : list PageEffect) : Prop :=
  exists q t,
    tr = q ++ [t] /\ quiet q /\ terminal t = true /\
    non_decreasing (progress_values q) /\
    (is_result t = true -> last (progress_values q) = Some 100).

(** The blocks of the worksheets [names], numbered from [i], with the
    tables [htmls], in order. *)
Fixpoint worksheet_blocks (i : Z) (names htmls : list string) : list string :=
  match names, htmls with
  | sheetName :: names', html :: htmls' =>
      worksheet_block i sheetName html :: worksheet_blocks (i + 1) names' htmls'
  | _, _ => []
  end.

Definition concat_strings (l : list string) : string :=
  fold_right String.append "" l.

(** [htmls] are the tables that [sheet_to_html] returns for the worksheets
    [names] of [workbook]: every worksheet converts. *)
Definition converts_to {ArrayBuffer Worksheet : Type} `{!Parsers ArrayBuffer Worksheet}
    (workbook : Workbook Worksheet) (names htmls : list string) : Prop :=
  Forall2 (fun sheetName html =>
             sheet_to_html (Sheets workbook !! sheetName) = Normal html)
          names htmls.

(** The markup of the slides [l], numbered from [index], in order. *)
Fixpoint slide_blocks (index : Z) (l : list Slide) : list string :=
  match l with
  | [] => []
  | slide :: rest => slide_html index slide :: slide_blocks (index + 1) rest
  end.

(** ** optimized-parsing.js: the progress reporter *)

(** The style engine, as far as the reporter meets it: an assignment to
    [style.width] is parsed, and a value that is no width is dropped, the
    property keeping the value it had.  The reporter assigns the text of
    an integer followed by the percent sign; of these, the ones with a
    minus sign are no widths (a width is never negative). *)
Module Css.

Definition is_digit (c : ascii) : bool :=
  let n := nat_of_ascii c in (48 <=? n)%nat && (n <=? 57)%nat.

(** Digits, none or more, then the percent sign and nothing after it. *)
Fixpoint digits_percent (s : string) : bool :=
  match s with
  | EmptyString => false
  | String c r =>
      if Ascii.eqb c "%" then
        match r with EmptyString => true | String _ _ => false end
      else is_digit c && digits_percent r
  end.

(** An unsigned integer percentage: one digit at least, then [%]. *)
Definition unsigned_percentage (s : string) : bool :=
  match s with
  | EmptyString => false
  | String c r => is_digit c && digits_percent r
  end.

(** [element.style.width = value], [width] being the value before. *)
Definition set_width (width value : string) : string :=
  if unsigned_percentage value then value else width.

End Css.

(** The two elements the indicator is made of, when the document has
    them: the [style.width] of [.progress-bar] and the [textContent] of
    [.progress-text]. *)
Record Indicator : Type :=
  { progressBar : option string; progressText : option string }.

(** [updateProgressIndicator(percent)] *)
Definition updateProgressIndicator (percent : Z) (dom : Indicator) : Indicator :=
  match progressBar dom, progressText dom with
  | Some width, Some _ =>
      {| progressBar := Some (Css.set_width width (Js.show percent +:+ "%"));
         progressText := Some ("正在解析: " +:+ Js.show percent +:+ "%") |}
  | _, _ => dom
  end.

(** The indicator that [parseLargeFile] writes before dispatching. *)
Definition initial_indicator : Indicator :=
  {| progressBar := Some "0%"; progressText := Some "准备解析..." |}.

(** Clamping into [0, 100], as the specification describes the reporter;
    [updateProgressIndicator] contains no such step. *)
Definition clamp (percent : Z) : Z := Z.min (Z.max percent 0) 100.

(** ** optimized-parsing.js: the windowed renderer *)

Module Renderer.

(** What the layout engine reports for an HTML string assigned to
    [innerHTML]: the top-level elements ([tempDiv.children]), the measured
    height ([tempDiv.offsetHeight]) and the height of the preview
    container ([container.clientHeight]).  Lengths are whole pixels. *)
Record Layout (Node : Type) : Type :=
  { children : list Node; offsetHeight : Z; clientHeight : Z }.
Arguments children {Node} _.
Arguments offsetHeight {Node} _.
Arguments clientHeight {Node} _.

(** The mutable state of [enableVirtualScrolling]: the variable
    [currentStart], the children of [.scroll-container] and its
    [translateY] offset ([None] while no transform was set). *)
Record State (Node : Type) : Type :=
  { currentStart : Z; slice : list Node; translateY : option Z }.
Arguments currentStart {Node} _.
Arguments slice {Node} _.
Arguments translateY {Node} _.

Definition threshold : Z := 500000.
Definition buffer : Z := 200.

(** [Math.floor(x / 10)] and [Math.ceil(x / 10)] for an integer [x]. *)
Definition floor_div10 (x : Z) : Z := x / 10.
Definition ceil_div10 (x : Z) : Z := - ((- x) / 10).

(** [start] and [end] of [renderVisibleContent]. *)
Definition start_index (scrollTop : Z) : Z :=
  Z.max 0 (floor_div10 (scrollTop - buffer)).

Definition end_index (viewportHeight scrollTop : Z) : Z :=
  ceil_div10 (scrollTop + viewportHeight + buffer).

(** The clones appended by the [for] loop: the elements with index in
    [[startIndex, endIndex)]. *)
Definition clones {Node} (allElements : list Node) (start end_ : Z) : list Node :=
  let len := Z.of_nat (length allElements) in
  let startIndex := Z.min start len in
  let endIndex := Z.min end_ len in
  take (Z.to_nat (endIndex - startIndex)) (drop (Z.to_nat startIndex) allElements).

(** Whether a frame at [scrollTop] enters the [if (start !== currentStart)]
    branch. *)
Definition rerenders {Node} (scrollTop : Z) (st : State Node) : bool :=
  negb (start_index scrollTop =? currentStart st).

(** One call of [renderVisibleContent], with [scroller.scrollTop] read as
    [scrollTop]. *)
Definition renderVisibleContent {Node} (lay : Layout Node) (scrollTop : Z)
    (st : State Node) : State Node :=
  let start := start_index scrollTop in
  let end_ := end_index (clientHeight lay) scrollTop in
  if rerenders scrollTop st then
    {| currentStart := start;
       slice := clones (children lay) start end_;
       translateY := Some (start * 10) |}
  else st.

(** The state when [enableVirtualScrolling] starts its render loop:
    [currentStart = 0] and an empty [.scroll-container]. *)
Definition initial {Node} : State Node :=
  {| currentStart := 0; slice := []; translateY := None |}.

(** The render loop: one call per animation frame, [frames] being the
    scroll offsets read at the successive frames. *)
Definition run {Node} (lay : Layout Node) (frames : list Z) (st : State Node)
    : State Node :=
  fold_left (fun st scrollTop => renderVisibleContent lay scrollTop st) frames st.

(** The bound on the live slice: one more than the rows that fit in the
    viewport and its two buffers, and never more than the elements there
    are. *)
Definition bounded {Node} (lay : Layout Node) (st : State Node) : Prop :=
  Z.of_nat (length (slice st)) <= ceil_div10 (clientHeight lay + 2 * buffer) + 1 /\
  Z.of_nat (length (slice st)) <= Z.of_nat (length (children lay)).

(** The preview after [renderParsedContent(html)]. *)
Inductive Preview (Node : Type) : Type :=
  | Direct (html : string)
  | Windowed (placeholderHeight : Z) (st : State Node).
Arguments Direct {Node} html.
Arguments Windowed {Node} placeholderHeight st.

(** [enableVirtualScrolling]: the placeholder takes the measured height and
    the loop makes its first call at once, on a scroller that was just
    created (scroll offset 0). *)
Definition enableVirtualScrolling {Node} (lay : Layout Node) : Preview Node :=
  Windowed (offsetHeight lay) (renderVisibleContent lay 0 initial).

(** [renderParsedContent(html)] *)
Definition renderParsedContent {Node} (html : string) (lay : Layout Node)
    : Preview Node :=
  if threshold <? Js.js_length html then enableVirtualScrolling lay
  else Direct html.

(** The preview after the further animation frames [frames]. *)
Definition after_frames {Node} (lay : Layout Node) (frames : list Z)
    (p : Preview Node) : Preview Node :=
  match p with
  | Direct html => Direct html
  | Windowed h st => Windowed h (run lay frames st)
  end.

(** Number of top-level nodes attached to the live slice. *)
Definition attached {Node} (p : Preview Node) : Z :=
  match p with
  | Direct _ => 0
  | Windowed _ st => Z.of_nat (length (slice st))
  end.

Definition attached_nodes {Node} (p : Preview Node) : list Node :=
  match p with
  | Direct _ => []
  | Windowed _ st => slice st
  end.

End Renderer.

(** ** Sample documents *)

(** A concrete instance of the collaborators for the examples: a payload
    is identified with the document it encodes, and a worksheet with what
    [sheet_to_html] makes of it. *)
Module Fixture.

Inductive Document : Type :=
  | Spreadsheet (workbook : Workbook (completion string))
  | Slideshow (presentation : Presentation)
  | Corrupt (message : string).

#[global] Instance parsers : Parsers Document (completion string) :=
  {| XLSX_read d :=
       match d with
       | Spreadsheet workbook => Normal workbook
       | Slideshow _ => Throw "Unsupported file"
       | Corrupt message => Throw message
       end;
     sheet_to_html ws :=
       match ws with
       | Some c => c
       | None => Throw "Cannot read properties of undefined"
       end;
     PptxParser_parse d :=
       match d with
       | Slideshow presentation => Normal presentation
       | Spreadsheet _ => Throw "Unsupported file"
       | Corrupt message => Throw message
       end |}.

Definition table (cell : string) : string :=
  "<table><tr><td>" +:+ cell +:+ "</td></tr></table>".

(** Three worksheets named A, B and C. *)
Definition abc : Document :=
  Spreadsheet
    {| SheetNames := ["A"; "B"; "C"];
       Sheets := {[ "A" := Normal (table "1");
                    "B" := Normal (table "2");
                    "C" := Normal (table "3") ]} |}.

(** One worksheet whose name contains markup. *)
Definition tagged : Document :=
  Spreadsheet
    {| SheetNames := ["<b>"];
       Sheets := {[ "<b>" := Normal (table "1") ]} |}.

(** Two slides: a title slide and a slide without text. *)
Definition deck : Document :=
  Slideshow
    {| slides :=
         [ {| text := Some [ {| level := 0; content := "Q&A <live>" |};
                             {| level := 2; content := "it's on" |} ] |};
           {| text := Some [] |} ] |}.

(** An HTML string of more than 500000 characters with 200 top-level
    paragraphs, and the layout the browser reports for it in a preview
    container 600 pixels high. *)
Definition paragraph : string :=
  "<p>" +:+ Pos.iter (String "x") "" 2600 +:+ "</p>".

Definition long_page : list string := replicate 200 paragraph.

Definition long_html : string := fold_right String.append "" long_page.

Definition long_layout : Renderer.Layout string :=
  {| Renderer.children := long_page;
     Renderer.offsetHeight := 200 * 3000;
     Renderer.clientHeight := 600 |}.

(** The same page with paragraphs that differ: each starts with its
    number, from 1 to 200. *)
Definition numbered (i : Z) : string :=
  "<p>" +:+ Js.show i +:+ " " +:+ Pos.iter (String "x") "" 2600 +:+ "</p>".

Definition numbered_page : list string := map numbered (seqZ 1 200).

Definition numbered_html : string := fold_right String.append "" numbered_page.

Definition numbered_layout : Renderer.Layout string :=
  {| Renderer.children := numbered_page;
     Renderer.offsetHeight := 200 * 3000;
     Renderer.clientHeight := 600 |}.

(** The output of a conversion has a single top-level element; here a
    spreadsheet preview of more than 500000 characters, measured 20000
    pixels high. *)
Definition single_html : string :=
  xlsx_header 1 +:+ worksheet_block 0 "A" (table (Pos.iter (String "x") "" 500000)) +:+ "</div>".

Definition single_layout : Renderer.Layout string :=
  {| Renderer.children := [single_html];
     Renderer.offsetHeight := 20000;
     Renderer.clientHeight := 600 |}.

End Fixture.

(** ** parser.worker.js: escaping in one pass *)

(** What a single pass over the text writes for one character; the
    reference against which the five successive replacements of
    [escapeHtml] are compared. *)
Definition escape_char (c : ascii) : string :=
  if Ascii.eqb c "&" then "&amp;"
  else if Ascii.eqb c "<" then "&lt;"
  else if Ascii.eqb c ">" then "&gt;"
  else if Ascii.eqb c (ascii_of_nat 34) then "&quot;"
  else if Ascii.eqb c "'" then "&#039;"
  else String c "".

Fixpoint escape_once (s : string) : string :=
  match s with
  | EmptyString => EmptyString
  | String c r => escape_char c +:+ escape_once r
  end.

(** The five replacements, applied to any string (the guard for the empty
    string apart). *)
Definition five_replacements (s : string) : string :=
  Js.replace_all "'" "&#039;"
    (Js.replace_all (ascii_of_nat 34) "&quot;"
      (Js.replace_all ">" "&gt;"
        (Js.replace_all "<" "&lt;"
          (Js.replace_all "&" "&amp;" s)))).

(** Whether a character is one of the five that [escapeHtml] replaces. *)
Definition special (c : ascii) : bool :=
  Ascii.eqb c "&" || Ascii.eqb c "<" || Ascii.eqb c ">" ||
  Ascii.eqb c (ascii_of_nat 34) || Ascii.eqb c "'".

Fixpoint has_special (s : string) : bool :=
  match s with
  | EmptyString => false
  | String c r => special c || has_special r
  end.

(** The unit roundoff of double precision: half a unit in the last place
    of a number in [[1, 2)], [2^-53]. *)
Definition unit_roundoff : Q := 1 # 9007199254740992.

(** Number of occurrences of the character [c] in [s]. *)
Fixpoint count_char (c : ascii) (s : string) : nat :=
  match s with
  | EmptyString => O
  | String x r => ((if Ascii.eqb x c then 1 else 0) + count_char c r)%nat
  end.

(** The characters that delimit tags and attribute values. *)
Definition markup_char (c : ascii) : Prop :=
  In c ["<"; ">"; ascii_of_nat 34; "'"]%char.

(** The markup that [parsePptx] delivers for a presentation, lines
    136-162. *)
Definition pptx_html (presentation : Presentation) : string :=
  slides_forEach (slides presentation) 0
    (pptx_header (Z.of_nat (length (slides presentation)))) +:+ "</div>".

(** The presentation with the same slides, runs and levels, and no text. *)
Definition without_text (presentation : Presentation) : Presentation :=
  {| slides :=
       map (fun slide =>
              {| text := option_map
                           (map (fun t => {| level := level t; content := "" |}))
                           (text slide) |})
           (slides presentation) |}.

(** The worker's timers. *)
Definition is_timer (e : WorkerEffect) : bool :=
  match e with SetTimeout _ => true | PostMessage _ => false end.

Definition pauses (tr : list WorkerEffect) : nat := length (List.filter is_timer tr).

(** The messages posted by the worker, in order. *)
Definition posted (tr : list WorkerEffect) : list WorkerMessage :=
  omap (fun e => match e with PostMessage m => Some m | SetTimeout _ => None end) tr.

(** A terminal message of the protocol: a result or an error. *)
Definition is_terminal_message (m : WorkerMessage) : bool :=
  match m with
  | MsgProgress _ => false
  | MsgXlsxResult _ | MsgPptxResult _ | MsgError _ => true
  end.

(** The prefix that [parseXlsx] puts before the message of an error. *)
Definition with_excel_prefix (e : PageEffect) : PageEffect :=
  match e with
  | HandleParsingError message => HandleParsingError ("Excel解析失败: " +:+ message)
  | _ => e
  end.

(** ** optimized-parsing.js: the error message *)

(** The markup that [handleParsingError(message)] assigns to the preview
    container, lines 278-282. *)
Definition handleParsingError (message : string) : string :=
  "<div " +:+ Js.attr "class" "error-message" +:+ ">" +:+
  Js.indent 8 +:+ "<p>解析文档时发生错误</p>" +:+
  Js.indent 8 +:+ "<p>错误: " +:+ message +:+ "</p>" +:+
  Js.indent 8 +:+ "<p>建议尝试下载文档查看</p>" +:+
  Js.indent 4 +:+ "</div>".

(** The markup written to the preview by the error deliveries of a run. *)
Definition error_markups (tr : list PageEffect) : list string :=
  omap (fun e => match e with
                 | HandleParsingError message => Some (handleParsingError message)
                 | _ => None
                 end) tr.

(** ** optimized-parsing.js: deferred images *)

Module LazyImages.

(** An [img] element of the container: its [src] and [data-src]
    attributes, [None] when absent.  The images of a container are
    numbered in document order. *)
Record Image : Type := { src : option string; data_src : option string }.

(** The container and the targets the observer currently observes. *)
Record State : Type := { images : list Image; observed : gset nat }.

(** An entry passed to the observer's callback; its target is an image of
    the container, given by its position. *)
Record Entry : Type := { target : nat; isIntersecting : bool }.

(** [container.querySelectorAll('img[data-src]')], as positions, counted
    from [i]. *)
Fixpoint deferred_from (i : nat) (imgs : list Image) : list nat :=
  match imgs with
  | [] => []
  | img :: rest =>
      match data_src img with
      | Some _ => i :: deferred_from (S i) rest
      | None => deferred_from (S i) rest
      end
  end.

Definition deferred (imgs : list Image) : list nat := deferred_from 0 imgs.

(** [lazyLoadImages(container)]: [None] when it returns before creating an
    observer, otherwise the targets observed. *)
Definition lazyLoadImages (container : list Image) : option (gset nat) :=
  match deferred container with
  | [] => None
  | targets => Some (list_to_set targets)
  end.

(** [img.src = img.dataset.src; img.removeAttribute('data-src')]; an
    absent [data-src] reads as [undefined], which the assignment turns
    into the text [undefined]. *)
Definition load (img : Image) : Image :=
  {| src := Some (match data_src img with
                  | Some url => url
                  | None => "undefined"
                  end);
     data_src := None |}.

(** The body of the [forEach] of the callback, for one entry. *)
Definition on_entry (st : State) (entry : Entry) : State :=
  if isIntersecting entry then
    {| images := alter load (target entry) (images st);
       observed := observed st ∖ {[ target entry ]} |}
  else st.

(** The observer's callback on a batch of entries. *)
Definition callback (entries : list Entry) (st : State) : State :=
  fold_left on_entry entries st.

(** The targets of the intersecting entries of a batch. *)
Definition intersecting (entries : list Entry) : list nat :=
  target <$> List.filter isIntersecting entries.

End LazyImages.

(** ** Further sample documents *)

Module Samples.

(** Three worksheets, the second of which fails to convert. *)
Definition broken : Fixture.Document :=
  Fixture.Spreadsheet
    {| SheetNames := ["A"; "B"; "C"];
       Sheets := {[ "A" := Normal (Fixture.table "1");
                    "B" := Throw "Bad range";
                    "C" := Normal (Fixture.table "3") ]} |}.

(** A workbook without worksheets. *)
Definition blank : Fixture.Document :=
  Fixture.Spreadsheet {| SheetNames := []; Sheets := ∅ |}.

(** Deferred and loaded images of a container. *)
Definition gallery : list LazyImages.Image :=
  [ {| LazyImages.src := None; LazyImages.data_src := Some "a.png" |};
    {| LazyImages.src := Some "logo.png"; LazyImages.data_src := None |};
    {| LazyImages.src := None; LazyImages.data_src := Some "b.png" |} ].

End Samples.

(** * Properties *)

(** ** Double precision rounding is monotone *)

Module DoubleFacts.
Import Double.

Lemma rne_cases q : rne q = Qfloor q \/ rne q = Qfloor q + 1.
Proof. unfold rne. destruct (Qcompare _ _); [destruct (Z.even _)|..]; auto. Qed.

Lemma rne_mono x y : (x <= y)%Q -> rne x <= rne y.
Proof.
  intros Hxy.
  pose proof (Qfloor_resp_le _ _ Hxy) as Hf.
  destruct (Z.eq_dec (Qfloor x) (Qfloor y)) as [E|NE].
  2:{ destruct (rne_cases x), (rne_cases y); lia. }
  unfold rne. rewrite <- E.
  destruct (Qcompare_spec (x - inject_Z (Qfloor x)) (1#2)) as [Hx|Hx|Hx];
  destruct (Qcompare_spec (y - inject_Z (Qfloor x)) (1#2)) as [Hy|Hy|Hy];
  try destruct (Z.even (Qfloor x)); try lia; exfalso; lra.
Qed.

Lemma rne_Z z : rne (inject_Z z) = z.
Proof.
  unfold rne. rewrite Qfloor_Z.
  destruct (Qcompare_spec (inject_Z z - inject_Z z) (1#2)) as [H|H|H]; try reflexivity; exfalso; lra.
Qed.

Lemma pow2_pos e : (0 < pow2 e)%Q.
Proof. apply Qpower_0_lt. reflexivity. Qed.

Lemma pow2_le a b : a <= b -> (pow2 a <= pow2 b)%Q.
Proof. intros. apply Qpower_le_compat_l; [assumption|]. discriminate. Qed.

Lemma pow2_plus a b : (pow2 (a + b) == pow2 a * pow2 b)%Q.
Proof. apply Qpower_plus. discriminate. Qed.

Lemma pow2_Z k : 0 <= k -> (inject_Z (2 ^ k) == pow2 k)%Q.
Proof. intros. unfold pow2. rewrite Zpower_Qpower by assumption. reflexivity. Qed.

Lemma exponent_spec a b :
  (pow2 (exponent a b + 52) <= Zpos a # b)%Q /\ (Zpos a # b < pow2 (exponent a b + 53))%Q.
Proof.
  unfold exponent.
  set (la := Z.log2 (Zpos a)). set (lb := Z.log2 (Zpos b)).
  assert (Ha : 2 ^ la <= Zpos a < 2 ^ (la + 1)).
  { pose proof (Z.log2_spec (Zpos a) ltac:(lia)). fold la in H. rewrite <- Z.add_1_r in H. lia. }
  assert (Hb : 2 ^ lb <= Zpos b < 2 ^ (lb + 1)).
  { pose proof (Z.log2_spec (Zpos b) ltac:(lia)). fold lb in H. rewrite <- Z.add_1_r in H. lia. }
  assert (Hla : 0 <= la) by apply Z.log2_nonneg.
  assert (Hlb : 0 <= lb) by apply Z.log2_nonneg.
  assert (Hbq : (0 < inject_Z (Zpos b))%Q) by reflexivity.
  assert (L : (pow2 (la - lb - 1) < Zpos a # b)%Q).
  { rewrite Qmake_Qdiv. apply Qlt_shift_div_l; [assumption|].
    apply Qlt_le_trans with (pow2 (la - lb - 1) * pow2 (lb + 1))%Q.
    - apply Qmult_lt_l; [apply pow2_pos|]. rewrite <- pow2_Z by lia. rewrite <- Zlt_Qlt. lia.
    - rewrite <- pow2_plus. replace (la - lb - 1 + (lb + 1)) with la by lia.
      rewrite <- pow2_Z by lia. rewrite <- Zle_Qle. lia. }
  assert (U : (Zpos a # b < pow2 (la - lb + 1))%Q).
  { rewrite Qmake_Qdiv. apply Qlt_shift_div_r; [assumption|].
    apply Qlt_le_trans with (pow2 (la + 1)).
    - rewrite <- pow2_Z by lia. rewrite <- Zlt_Qlt. lia.
    - replace (la + 1) with (la - lb + 1 + lb) by lia. rewrite pow2_plus.
      apply Qmult_le_l; [apply pow2_pos|]. rewrite <- pow2_Z by lia. rewrite <- Zle_Qle. lia. }
  destruct (Qle_bool _ _) eqn:E.
  - apply Qle_bool_iff in E. split.
    + replace (la - lb - 53 + 1 + 52) with (la - lb - 53 + 53) by lia. exact E.
    + replace (la - lb - 53 + 1 + 53) with (la - lb + 1) by lia. exact U.
  - split.
    + replace (la - lb - 53 + 52) with (la - lb - 1) by lia. apply Qlt_le_weak, L.
    + apply Qnot_le_lt. intros H. apply Qle_bool_iff in H. congruence.
Qed.

Lemma scaled_bounds a b :
  (inject_Z (2 ^ 52) <= (Zpos a # b) / pow2 (exponent a b))%Q /\
  ((Zpos a # b) / pow2 (exponent a b) <= inject_Z (2 ^ 53))%Q.
Proof.
  destruct (exponent_spec a b) as [L U].
  rewrite pow2_plus in L. rewrite pow2_plus in U.
  rewrite (pow2_Z 52), (pow2_Z 53) by lia. split.
  - apply Qle_shift_div_l; [apply pow2_pos|]. rewrite Qmult_comm. exact L.
  - apply Qle_shift_div_r; [apply pow2_pos|]. rewrite Qmult_comm. apply Qlt_le_weak, U.
Qed.

Lemma fl_pos_bounds a b :
  (pow2 (exponent a b + 52) <= fl_pos a b)%Q /\
  (fl_pos a b <= pow2 (exponent a b + 53))%Q.
Proof.
  destruct (scaled_bounds a b) as [L U].
  apply rne_mono in L. apply rne_mono in U. rewrite rne_Z in L, U.
  unfold fl_pos. rewrite (pow2_plus _ 52), (pow2_plus _ 53), <- (pow2_Z 52), <- (pow2_Z 53) by lia.
  rewrite !(Qmult_comm (pow2 (exponent a b))).
  split; (apply Qmult_le_compat_r; [rewrite <- Zle_Qle; assumption | apply Qlt_le_weak, pow2_pos]).
Qed.

Lemma fl_pos_positive a b : (0 < fl_pos a b)%Q.
Proof.
  eapply Qlt_le_trans; [apply (pow2_pos (exponent a b + 52))|apply fl_pos_bounds].
Qed.

Lemma fl_pos_mono a b c d :
  (Zpos a # b <= Zpos c # d)%Q -> (fl_pos a b <= fl_pos c d)%Q.
Proof.
  intros H.
  destruct (exponent_spec a b) as [La Ua], (exponent_spec c d) as [Lc Uc].
  destruct (Z_lt_le_dec (exponent c d) (exponent a b)) as [Hlt|Hle].
  { exfalso. apply (Qlt_irrefl (Zpos c # d)).
    eapply Qlt_le_trans; [exact Uc|].
    eapply Qle_trans; [|eapply Qle_trans; [exact La|exact H]].
    apply pow2_le. lia. }
  destruct (Z.eq_dec (exponent a b) (exponent c d)) as [E|NE].
  - unfold fl_pos. rewrite <- E.
    apply Qmult_le_compat_r; [|apply Qlt_le_weak, pow2_pos].
    rewrite <- Zle_Qle. apply rne_mono.
    apply Qmult_le_compat_r; [exact H|].
    apply Qlt_le_weak, Qinv_lt_0_compat, pow2_pos.
  - eapply Qle_trans; [apply fl_pos_bounds|].
    eapply Qle_trans; [|apply fl_pos_bounds].
    apply pow2_le. lia.
Qed.

Lemma fl_nonneg x : (0 <= x)%Q -> (0 <= fl x)%Q.
Proof.
  destruct x as [[|a|a] b]; unfold fl; simpl; intros H.
  - apply Qle_refl.
  - apply Qlt_le_weak, fl_pos_positive.
  - exfalso. revert H. unfold Qle. simpl. lia.
Qed.

Lemma fl_mono x y : (0 <= x)%Q -> (x <= y)%Q -> (fl x <= fl y)%Q.
Proof.
  intros H0 H.
  destruct x as [[|a|a] b].
  - apply (fl_nonneg y). revert H. unfold Qle. simpl. nia.
  - destruct y as [[|c|c] d]; unfold fl; simpl.
    + exfalso. revert H. unfold Qle. simpl. lia.
    + apply fl_pos_mono. exact H.
    + exfalso. revert H. unfold Qle. simpl. lia.
  - exfalso. revert H0. unfold Qle. simpl. lia.
Qed.

Lemma fl_0 : (fl 0 == 0)%Q. Proof. reflexivity. Qed.
Lemma fl_1 : (fl 1 == 1)%Q. Proof. vm_compute. reflexivity. Qed.
Lemma fl_60 : (fl 60 == 60)%Q. Proof. vm_compute. reflexivity. Qed.

Lemma Math_round_mono x y : (x <= y)%Q -> Math_round x <= Math_round y.
Proof. intros. apply Qfloor_resp_le. lra. Qed.


Lemma quotient_nonneg i n : 0 <= i -> 0 < n -> (0 <= inject_Z i / inject_Z n)%Q.
Proof.
  intros Hi Hn. apply Qle_shift_div_l.
  - rewrite <- (Zlt_Qlt 0). exact Hn.
  - rewrite Qmult_0_l. rewrite <- (Zle_Qle 0). exact Hi.
Qed.

Lemma quotient_mono i j n :
  i <= j -> 0 < n -> (inject_Z i / inject_Z n <= inject_Z j / inject_Z n)%Q.
Proof.
  intros Hij Hn. apply Qmult_le_compat_r.
  - rewrite <- Zle_Qle. exact Hij.
  - apply Qlt_le_weak, Qinv_lt_0_compat. rewrite <- (Zlt_Qlt 0). exact Hn.
Qed.

Lemma quotient_le_1 i n : i <= n -> 0 < n -> (inject_Z i / inject_Z n <= 1)%Q.
Proof.
  intros Hi Hn. apply Qle_shift_div_r.
  - rewrite <- (Zlt_Qlt 0). exact Hn.
  - rewrite Qmult_1_l. rewrite <- Zle_Qle. exact Hi.
Qed.

Lemma div_nonneg i n : 0 <= i -> 0 < n -> (0 <= div (inject_Z i) (inject_Z n))%Q.
Proof. intros. apply fl_nonneg, quotient_nonneg; assumption. Qed.

Lemma scaled_mono i j n :
  0 <= i <= j -> 0 < n ->
  (mul (div (inject_Z i) (inject_Z n)) 60 <= mul (div (inject_Z j) (inject_Z n)) 60)%Q.
Proof.
  intros [Hi Hij] Hn. unfold mul.
  apply fl_mono.
  - apply Qmult_le_0_compat; [apply div_nonneg; assumption | discriminate].
  - apply Qmult_le_compat_r; [|discriminate].
    apply fl_mono; [apply quotient_nonneg | apply quotient_mono]; assumption.
Qed.

Lemma scaled_range i n :
  0 <= i < n ->
  (0 <= mul (div (inject_Z i) (inject_Z n)) 60 <= 60)%Q.
Proof.
  intros [Hi Hn].
  assert (D : (div (inject_Z i) (inject_Z n) <= 1)%Q).
  { rewrite <- fl_1. apply fl_mono; [apply quotient_nonneg | apply quotient_le_1]; lia. }
  assert (D0 := div_nonneg i n Hi ltac:(lia)).
  unfold mul. split.
  - apply fl_nonneg. apply Qmult_le_0_compat; [exact D0 | discriminate].
  - rewrite <- fl_60 at 2. apply fl_mono.
    + apply Qmult_le_0_compat; [exact D0 | discriminate].
    + lra.
Qed.

Lemma sheet_progress_mono i j n :
  0 <= i <= j -> 0 < n -> sheet_progress i n <= sheet_progress j n.
Proof.
  intros Hij Hn. unfold sheet_progress.
  pose proof (Math_round_mono _ _ (scaled_mono i j n Hij Hn)). lia.
Qed.

Lemma sheet_progress_range i n :
  0 <= i < n -> 20 <= sheet_progress i n <= 80.
Proof.
  intros Hin. unfold sheet_progress.
  destruct (scaled_range i n Hin) as [L U].
  apply Math_round_mono in L, U.
  change (Math_round 0) with 0 in L. change (Math_round 60) with 60 in U. lia.
Qed.

End DoubleFacts.

(** ** The effect monad *)

Lemma trace_bind {E A B} (m : eff E A) (k : A -> eff E B) :
  trace_of (bind m k) =
  trace_of m ++ match outcome_of m with
                | Normal a => trace_of (k a)
                | Throw _ => []
                end.
Proof.
  destruct m as [tr [a|msg]]; simpl.
  - destruct (k a); reflexivity.
  - symmetry. apply app_nil_r.
Qed.

Lemma outcome_bind {E A B} (m : eff E A) (k : A -> eff E B) :
  outcome_of (bind m k) =
  match outcome_of m with
  | Normal a => outcome_of (k a)
  | Throw msg => Throw msg
  end.
Proof. destruct m as [tr [a|msg]]; simpl; [destruct (k a)|]; reflexivity. Qed.

Lemma trace_try_catch {E A} (m : eff E A) (h : string -> eff E A) :
  trace_of (try_catch m h) =
  trace_of m ++ match outcome_of m with
                | Normal _ => []
                | Throw msg => trace_of (h msg)
                end.
Proof.
  destruct m as [tr [a|msg]]; simpl.
  - symmetry. apply app_nil_r.
  - destruct (h msg); reflexivity.
Qed.

Lemma outcome_try_catch {E A} (m : eff E A) (h : string -> eff E A) :
  outcome_of (try_catch m h) =
  match outcome_of m with
  | Normal a => Normal a
  | Throw msg => outcome_of (h msg)
  end.
Proof. destruct m as [tr [a|msg]]; simpl; [|destruct (h msg)]; reflexivity. Qed.

(** ** Runs of a request *)

Lemma quiet_results q : quiet q -> results q = [].
Proof.
  induction 1 as [|e q He _ IH]; [reflexivity|].
  unfold results in *. simpl. unfold terminal in He.
  destruct (is_result e); [discriminate|exact IH].
Qed.

Lemma quiet_errors q : quiet q -> errors q = [].
Proof.
  induction 1 as [|e q He _ IH]; [reflexivity|].
  unfold errors in *. simpl. unfold terminal in He.
  destruct (is_error e); [destruct (is_result e); discriminate|exact IH].
Qed.

Lemma quiet_before_terminal q t :
  quiet q -> terminal t = true -> before_terminal (q ++ [t]) = q.
Proof.
  intros Hq Ht. induction Hq as [|e q He _ IH]; simpl.
  - unfold terminal in Ht. rewrite Ht. reflexivity.
  - unfold terminal in He. rewrite He, IH. reflexivity.
Qed.

Lemma results_app a b : results (a ++ b) = results a ++ results b.
Proof. apply List.filter_app. Qed.

Lemma errors_app a b : errors (a ++ b) = errors a ++ errors b.
Proof. apply List.filter_app. Qed.

Lemma progress_values_app a b :
  progress_values (a ++ b) = progress_values a ++ progress_values b.
Proof. apply omap_app. Qed.


(** Chains of percentages. *)

Lemma non_decreasing_cons x l :
  Forall (fun y => x <= y) l -> non_decreasing l -> non_decreasing (x :: l).
Proof.
  intros HF Hl. simpl. split; [|exact Hl].
  destruct l; [exact I|]. inversion HF; assumption.
Qed.

Lemma non_decreasing_snoc l b :
  Forall (fun y => y <= b) l -> non_decreasing l -> non_decreasing (l ++ [b]).
Proof.
  induction l as [|x l IH]; intros HF Hl; simpl.
  - auto.
  - inversion HF as [|? ? Hx HF']; subst. destruct Hl as [Hh Hl]. split.
    + destruct l; simpl; [exact Hx|exact Hh].
    + apply IH; assumption.
Qed.


(** ** Strings *)

Lemma append_assoc (a b c : string) : (a +:+ b) +:+ c = a +:+ (b +:+ c).
Proof.
  induction a as [|x a IH]; [reflexivity|].
  change (String x ((a +:+ b) +:+ c) = String x (a +:+ b +:+ c)).
  f_equal. exact IH.
Qed.

Lemma append_nil_r (a : string) : a +:+ "" = a.
Proof.
  induction a as [|x a IH]; [reflexivity|].
  change (String x (a +:+ "") = String x a).
  f_equal. exact IH.
Qed.

Lemma concat_strings_app (l1 l2 : list string) :
  concat_strings (l1 ++ l2) = concat_strings l1 +:+ concat_strings l2.
Proof.
  induction l1 as [|x l1 IH]; [reflexivity|].
  change (x +:+ concat_strings (l1 ++ l2) = (x +:+ concat_strings l1) +:+ concat_strings l2).
  rewrite IH, append_assoc. reflexivity.
Qed.

(** ** The spreadsheet loops *)

Section Loops.
Context {ArrayBuffer Worksheet : Type} `{!Parsers ArrayBuffer Worksheet}.
Variable workbook : Workbook Worksheet.
Variable totalSheets : Z.

Lemma worker_loop_step sheetName rest i htmlContent :
  worker_view (parseXlsx_loop workbook totalSheets (sheetName :: rest) i htmlContent) =
  UpdateProgress (sheet_progress i totalSheets) ::
  match sheet_to_html (Sheets workbook !! sheetName) with
  | Normal html =>
      worker_view (parseXlsx_loop workbook totalSheets rest (i + 1)
                     (htmlContent +:+ worksheet_block i sheetName html))
  | Throw _ => []
  end.
Proof.
  unfold worker_view. simpl.
  destruct (sheet_to_html _) as [html|msg]; simpl; [|reflexivity].
  destruct (parseXlsx_loop _ _ _ _ _) as [tr r]. reflexivity.
Qed.

Lemma worker_loop_outcome sheetName rest i htmlContent :
  outcome_of (parseXlsx_loop workbook totalSheets (sheetName :: rest) i htmlContent) =
  match sheet_to_html (Sheets workbook !! sheetName) with
  | Normal html =>
      outcome_of (parseXlsx_loop workbook totalSheets rest (i + 1)
                    (htmlContent +:+ worksheet_block i sheetName html))
  | Throw msg => Throw msg
  end.
Proof.
  simpl.
  destruct (sheet_to_html _) as [html|msg]; simpl; [|reflexivity].
  destruct (parseXlsx_loop _ _ _ _ _) as [tr r]. reflexivity.
Qed.

Lemma chunk_loop_step sheetName rest i htmlContent :
  trace_of (parseXlsxInChunks_loop workbook totalSheets (sheetName :: rest) i htmlContent) =
  UpdateProgress (sheet_progress i totalSheets) :: IdleCallback ::
  match sheet_to_html (Sheets workbook !! sheetName) with
  | Normal html =>
      trace_of (parseXlsxInChunks_loop workbook totalSheets rest (i + 1)
                  (htmlContent +:+ worksheet_block i sheetName html))
  | Throw _ => []
  end.
Proof.
  simpl.
  destruct (sheet_to_html _) as [html|msg]; simpl; [|reflexivity].
  destruct (parseXlsxInChunks_loop _ _ _ _ _) as [tr r]. reflexivity.
Qed.

Lemma chunk_loop_outcome sheetName rest i htmlContent :
  outcome_of (parseXlsxInChunks_loop workbook totalSheets (sheetName :: rest) i htmlContent) =
  match sheet_to_html (Sheets workbook !! sheetName) with
  | Normal html =>
      outcome_of (parseXlsxInChunks_loop workbook totalSheets rest (i + 1)
                    (htmlContent +:+ worksheet_block i sheetName html))
  | Throw msg => Throw msg
  end.
Proof.
  simpl.
  destruct (sheet_to_html _) as [html|msg]; simpl; [|reflexivity].
  destruct (parseXlsxInChunks_loop _ _ _ _ _) as [tr r]. reflexivity.
Qed.

(** The main-thread loop shows what the worker loop makes the page show,
    with a suspension after each percentage, and completes alike. *)
Lemma loops_agree names i htmlContent :
  List.filter (fun e => negb (is_idle e))
    (trace_of (parseXlsxInChunks_loop workbook totalSheets names i htmlContent)) =
  worker_view (parseXlsx_loop workbook totalSheets names i htmlContent) /\
  outcome_of (parseXlsxInChunks_loop workbook totalSheets names i htmlContent) =
  outcome_of (parseXlsx_loop workbook totalSheets names i htmlContent).
Proof.
  revert i htmlContent. induction names as [|sheetName rest IH]; intros i htmlContent.
  - split; reflexivity.
  - rewrite chunk_loop_step, worker_loop_step, chunk_loop_outcome, worker_loop_outcome.
    simpl. destruct (sheet_to_html _) as [html|msg].
    + destruct (IH (i + 1) (htmlContent +:+ worksheet_block i sheetName html)) as [-> ->].
      split; reflexivity.
    + split; reflexivity.
Qed.

(** The percentages of the loop form a chain between the one of its
    first index and 80. *)
Lemma worker_loop_chain names i htmlContent :
  0 <= i -> i + Z.of_nat (length names) <= totalSheets ->
  let view := worker_view (parseXlsx_loop workbook totalSheets names i htmlContent) in
  quiet view /\
  non_decreasing (progress_values view) /\
  Forall (fun x => sheet_progress i totalSheets <= x <= 80 /\ 20 <= x)
    (progress_values view).
Proof.
  revert i htmlContent. induction names as [|sheetName rest IH]; intros i htmlContent Hi Hn.
  - simpl. split; [|split]; constructor.
  - cbv zeta. rewrite worker_loop_step.
    simpl length in Hn.
    assert (Hsp : 20 <= sheet_progress i totalSheets <= 80)
      by (apply DoubleFacts.sheet_progress_range; lia).
    assert (Hmono : sheet_progress i totalSheets <= sheet_progress (i + 1) totalSheets)
      by (apply DoubleFacts.sheet_progress_mono; lia).
    destruct (sheet_to_html _) as [html|msg].
    + destruct (IH (i + 1) (htmlContent +:+ worksheet_block i sheetName html))
        as (Hq & Hnd & HF); [lia|lia|].
      cbv zeta in *. split; [|split].
      * constructor; [reflexivity|exact Hq].
      * change (non_decreasing (sheet_progress i totalSheets ::
            progress_values (worker_view (parseXlsx_loop workbook totalSheets rest (i + 1)
               (htmlContent +:+ worksheet_block i sheetName html))))).
        apply non_decreasing_cons; [|exact Hnd].
        eapply Forall_impl; [exact HF|]. simpl. intros. lia.
      * change (Forall (fun x => sheet_progress i totalSheets <= x <= 80 /\ 20 <= x)
            (sheet_progress i totalSheets ::
            progress_values (worker_view (parseXlsx_loop workbook totalSheets rest (i + 1)
               (htmlContent +:+ worksheet_block i sheetName html))))).
        constructor; [lia|]. eapply Forall_impl; [exact HF|]. simpl. intros. lia.
    + split; [|split].
      * constructor; [reflexivity|constructor].
      * simpl. auto.
      * change (Forall (fun x => sheet_progress i totalSheets <= x <= 80 /\ 20 <= x)
                  [sheet_progress i totalSheets]).
        constructor; [lia|constructor].
Qed.

End Loops.

(** ** What a request makes the page do *)

Lemma truthy_app p m : Js.truthy p = true -> Js.truthy (p +:+ m) = true.
Proof. destruct p; [discriminate|reflexivity]. Qed.


Lemma message_or_default_app p m :
  Js.truthy p = true -> message_or_default (p +:+ m) = p +:+ m.
Proof. intros H. unfold message_or_default. rewrite (truthy_app p m H). reflexivity. Qed.

Lemma host_onmessage_error e :
  Js.truthy e = true -> host_onmessage (MsgError e) = [HandleParsingError e].
Proof. intros H. unfold host_onmessage. simpl. rewrite H. reflexivity. Qed.

Lemma worker_view_app (a b : list WorkerEffect) :
  flat_map deliver (a ++ b) = flat_map deliver a ++ flat_map deliver b.
Proof. apply flat_map_app. Qed.

Ltac finish_view :=
  rewrite ?worker_view_app, ?app_nil_r; simpl;
  rewrite ?message_or_default_app by reflexivity;
  rewrite ?host_onmessage_error by reflexivity;
  rewrite ?app_nil_r;
  reflexivity.

Section Runs.
Context {ArrayBuffer Worksheet : Type} `{!Parsers ArrayBuffer Worksheet}.

Lemma parseXlsx_view arrayBuffer :
  worker_view (worker_onmessage "parse-xlsx" arrayBuffer) =
  UpdateProgress 10 ::
  match XLSX_read arrayBuffer with
  | Throw msg => [HandleParsingError ("Excel解析失败: " +:+ msg)]
  | Normal workbook =>
      let n := Z.of_nat (length (SheetNames workbook)) in
      let L := parseXlsx_loop workbook n (SheetNames workbook) 0 (xlsx_header n) in
      UpdateProgress 20 :: worker_view L ++
      match outcome_of L with
      | Normal h => [UpdateProgress 100; RenderParsedContent (h +:+ "</div>")]
      | Throw msg => [HandleParsingError ("Excel解析失败: " +:+ msg)]
      end
  end.
Proof.
  unfold worker_onmessage, parseXlsx, worker_view.
  change (String.eqb "parse-xlsx" "parse-xlsx") with true. cbv iota.
  destruct (XLSX_read arrayBuffer) as [workbook|msg]; simpl.
  - destruct (parseXlsx_loop _ _ _ _ _) as [tr [h|msg]]; simpl; finish_view.
  - finish_view.
Qed.

Lemma parsePptx_view arrayBuffer :
  worker_view (worker_onmessage "parse-pptx" arrayBuffer) =
  UpdateProgress 10 :: UpdateProgress 30 ::
  match PptxParser_parse arrayBuffer with
  | Throw msg => [HandleParsingError ("PowerPoint解析失败: " +:+ msg)]
  | Normal presentation =>
      [UpdateProgress 60; UpdateProgress 100;
       RenderParsedContent
         (slides_forEach (slides presentation) 0
            (pptx_header (Z.of_nat (length (slides presentation)))) +:+ "</div>")]
  end.
Proof.
  unfold worker_onmessage, parsePptx, worker_view.
  change (String.eqb "parse-pptx" "parse-xlsx") with false.
  change (String.eqb "parse-pptx" "parse-pptx") with true. cbv iota.
  destruct (PptxParser_parse arrayBuffer) as [presentation|msg]; simpl.
  - reflexivity.
  - finish_view.
Qed.

Lemma unsupported_view type arrayBuffer :
  String.eqb type "parse-xlsx" = false -> String.eqb type "parse-pptx" = false ->
  worker_view (worker_onmessage type arrayBuffer) =
  [HandleParsingError ("不支持的解析类型: " +:+ type)].
Proof.
  intros H1 H2. unfold worker_onmessage, worker_view. rewrite H1, H2. simpl.
  finish_view.
Qed.

Lemma parseXlsxInChunks_trace arrayBuffer :
  trace_of (parseXlsxInChunks arrayBuffer) =
  UpdateProgress 10 ::
  match XLSX_read arrayBuffer with
  | Throw msg => []
  | Normal workbook =>
      let n := Z.of_nat (length (SheetNames workbook)) in
      let L := parseXlsxInChunks_loop workbook n (SheetNames workbook) 0 (xlsx_header n) in
      UpdateProgress 20 :: trace_of L ++
      match outcome_of L with
      | Normal h => [UpdateProgress 100]
      | Throw msg => []
      end
  end.
Proof.
  unfold parseXlsxInChunks.
  destruct (XLSX_read arrayBuffer) as [workbook|msg]; simpl; [|reflexivity].
  destruct (parseXlsxInChunks_loop _ _ _ _ _) as [tr [h|msg]]; simpl;
    rewrite ?app_nil_r; reflexivity.
Qed.

Lemma parseXlsxInChunks_outcome arrayBuffer :
  outcome_of (parseXlsxInChunks arrayBuffer) =
  match XLSX_read arrayBuffer with
  | Throw msg => Throw msg
  | Normal workbook =>
      let n := Z.of_nat (length (SheetNames workbook)) in
      match outcome_of (parseXlsxInChunks_loop workbook n (SheetNames workbook) 0 (xlsx_header n)) with
      | Normal h => Normal (h +:+ "</div>")
      | Throw msg => Throw msg
      end
  end.
Proof.
  unfold parseXlsxInChunks.
  destruct (XLSX_read arrayBuffer) as [workbook|msg]; simpl; [|reflexivity].
  destruct (parseXlsxInChunks_loop _ _ _ _ _) as [tr [h|msg]]; reflexivity.
Qed.

(** The main-thread branch, for each document type. *)
Lemma fallback_xlsx arrayBuffer :
  trace_of (fallback script_globals arrayBuffer "xlsx") =
  trace_of (parseXlsxInChunks arrayBuffer) ++
  match outcome_of (parseXlsxInChunks arrayBuffer) with
  | Normal value => [RenderParsedContent value]
  | Throw msg => [HandleParsingError msg]
  end.
Proof.
  unfold fallback, call_global, script_globals.
  change (String.eqb "xlsx" "xlsx") with true. cbv iota.
  rewrite lookup_singleton_eq.
  destruct (parseXlsxInChunks arrayBuffer) as [tr [value|msg]]; reflexivity.
Qed.

Lemma fallback_pptx arrayBuffer :
  trace_of (fallback script_globals arrayBuffer "pptx") =
  [HandleParsingError (ReferenceError "parsePptxInChunks")].
Proof.
  unfold fallback, call_global, script_globals.
  change (String.eqb "pptx" "xlsx") with false.
  change (String.eqb "pptx" "pptx") with true. cbv iota.
  rewrite lookup_singleton_ne by discriminate. reflexivity.
Qed.

Lemma fallback_unsupported arrayBuffer docType :
  String.eqb docType "xlsx" = false -> String.eqb docType "pptx" = false ->
  trace_of (fallback script_globals arrayBuffer docType) =
  [HandleParsingError ("不支持的文档类型: " +:+ docType)].
Proof. intros H1 H2. unfold fallback. rewrite H1, H2. reflexivity. Qed.

End Runs.

(** ** Every request is a run *)

Lemma quiet_app a b : quiet a -> quiet b -> quiet (a ++ b).
Proof. unfold quiet. intros. apply Forall_app; auto. Qed.

Lemma quiet_drop_idle l :
  quiet (List.filter (fun e => negb (is_idle e)) l) -> quiet l.
Proof.
  unfold quiet. induction l as [|e l IH]; simpl; intros H; [constructor|].
  destruct e; simpl in *;
    [inversion H; subst; constructor; auto ..|constructor; [reflexivity|auto]].
Qed.

Lemma progress_drop_idle l :
  progress_values (List.filter (fun e => negb (is_idle e)) l) = progress_values l.
Proof.
  induction l as [|e l IH]; [reflexivity|].
  destruct e; simpl; unfold progress_values in *; simpl; rewrite ?IH; reflexivity.
Qed.

Lemma run_shape_error q message :
  quiet q -> non_decreasing (progress_values q) ->
  run_shape (q ++ [HandleParsingError message]).
Proof.
  intros Hq Hnd. exists q, (HandleParsingError message).
  repeat (split; [first [reflexivity | assumption]|]). discriminate.
Qed.

Lemma run_shape_result_100 q html :
  quiet q -> non_decreasing (progress_values q) ->
  last (progress_values q) = Some 100 ->
  run_shape (q ++ [RenderParsedContent html]).
Proof.
  intros Hq Hnd H100. exists q, (RenderParsedContent html).
  repeat (split; [first [reflexivity | assumption]|]). intros _. exact H100.
Qed.

(** The quiet part of a spreadsheet run, given the view of its loop. *)
Lemma xlsx_prefix_chain view :
  quiet view -> non_decreasing (progress_values view) ->
  Forall (fun x => 20 <= x <= 80) (progress_values view) ->
  let q := UpdateProgress 10 :: UpdateProgress 20 :: view in
  (quiet q /\ non_decreasing (progress_values q)) /\
  (quiet (q ++ [UpdateProgress 100]) /\
   non_decreasing (progress_values (q ++ [UpdateProgress 100])) /\
   last (progress_values (q ++ [UpdateProgress 100])) = Some 100).
Proof.
  intros Hq Hnd HF q.
  assert (Q : quiet q) by (repeat (constructor; [reflexivity|]); exact Hq).
  assert (E : progress_values q = 10 :: 20 :: progress_values view) by reflexivity.
  assert (N : non_decreasing (progress_values q)).
  { rewrite E. apply non_decreasing_cons.
    - constructor; [lia|]. eapply Forall_impl; [exact HF|]. simpl. intros. lia.
    - apply non_decreasing_cons; [|exact Hnd].
      eapply Forall_impl; [exact HF|]. simpl. intros. lia. }
  split; [split; assumption|].
  assert (E' : progress_values (q ++ [UpdateProgress 100]) = progress_values q ++ [100])
    by apply progress_values_app.
  split; [|split].
  - apply quiet_app; [exact Q|]. constructor; [reflexivity|constructor].
  - rewrite E'. apply non_decreasing_snoc; [|exact N].
    rewrite E. constructor; [lia|]. constructor; [lia|].
    eapply Forall_impl; [exact HF|]. simpl. intros. lia.
  - rewrite E'. apply last_snoc.
Qed.

Section Requests.
Context {ArrayBuffer Worksheet : Type} `{!Parsers ArrayBuffer Worksheet}.

Lemma worker_loop_view_chain (workbook : Workbook Worksheet) htmlContent :
  let n := Z.of_nat (length (SheetNames workbook)) in
  let view := worker_view (parseXlsx_loop workbook n (SheetNames workbook) 0 htmlContent) in
  quiet view /\ non_decreasing (progress_values view) /\
  Forall (fun x => 20 <= x <= 80) (progress_values view).
Proof.
  intros n view.
  destruct (worker_loop_chain workbook n (SheetNames workbook) 0 htmlContent)
    as (Hq & Hnd & HF); [lia|lia|].
  split; [exact Hq|]. split; [exact Hnd|].
  eapply Forall_impl; [exact HF|]. simpl. intros. lia.
Qed.

Lemma worker_xlsx_run arrayBuffer :
  run_shape (worker_view (worker_onmessage "parse-xlsx" arrayBuffer)).
Proof.
  rewrite parseXlsx_view.
  destruct (XLSX_read arrayBuffer) as [workbook|msg].
  - cbv zeta.
    destruct (worker_loop_view_chain workbook
                (xlsx_header (Z.of_nat (length (SheetNames workbook)))))
      as (Hq & Hnd & HF).
    cbv zeta in Hq, Hnd, HF.
    destruct (xlsx_prefix_chain _ Hq Hnd HF) as [[Q N] (Q' & N' & L')].
    cbv zeta in *.
    destruct (outcome_of _) as [h|msg].
    + apply (run_shape_result_100 _ (h +:+ "</div>") Q' N') in L'.
      rewrite <- !app_assoc in L'. exact L'.
    + exact (run_shape_error _ ("Excel解析失败: " +:+ msg) Q N).
  - apply (run_shape_error [UpdateProgress 10]).
    + constructor; [reflexivity|constructor].
    + simpl. auto.
Qed.

Lemma worker_pptx_run arrayBuffer :
  run_shape (worker_view (worker_onmessage "parse-pptx" arrayBuffer)).
Proof.
  rewrite parsePptx_view.
  destruct (PptxParser_parse arrayBuffer) as [presentation|msg].
  - apply (run_shape_result_100
             [UpdateProgress 10; UpdateProgress 30; UpdateProgress 60; UpdateProgress 100]).
    + repeat (constructor; [reflexivity|]). constructor.
    + simpl. lia.
    + reflexivity.
  - apply (run_shape_error [UpdateProgress 10; UpdateProgress 30]).
    + repeat (constructor; [reflexivity|]). constructor.
    + simpl. lia.
Qed.

Lemma fallback_xlsx_run arrayBuffer :
  run_shape (trace_of (fallback script_globals arrayBuffer "xlsx")).
Proof.
  rewrite fallback_xlsx, parseXlsxInChunks_trace, parseXlsxInChunks_outcome.
  destruct (XLSX_read arrayBuffer) as [workbook|msg].
  - cbv zeta.
    set (n := Z.of_nat (length (SheetNames workbook))).
    destruct (loops_agree workbook n (SheetNames workbook) 0 (xlsx_header n)) as [Hv Ho].
    destruct (worker_loop_view_chain workbook (xlsx_header n)) as (Hq & Hnd & HF).
    cbv zeta in Hq, Hnd, HF. fold n in Hq, Hnd, HF.
    rewrite <- Hv in Hq, Hnd, HF. rewrite progress_drop_idle in Hnd, HF.
    apply quiet_drop_idle in Hq.
    destruct (xlsx_prefix_chain _ Hq Hnd HF) as [[Q N] (Q' & N' & L')].
    cbv zeta in *.
    destruct (outcome_of _) as [h|msg].
    + exact (run_shape_result_100 _ (h +:+ "</div>") Q' N' L').
    + rewrite app_nil_r. exact (run_shape_error _ msg Q N).
  - apply (run_shape_error [UpdateProgress 10]).
    + constructor; [reflexivity|constructor].
    + simpl. auto.
Qed.

(** Every request is a run, whatever the platform, the payload and the
    document type. *)
Lemma request_run platform arrayBuffer docType :
  run_shape (parseLargeFile platform arrayBuffer docType).
Proof.
  unfold parseLargeFile, parseLargeFile_in.
  destruct (String.eqb docType "xlsx") eqn:Ex;
    [apply String.eqb_eq in Ex; subst docType|];
    [|destruct (String.eqb docType "pptx") eqn:Ep;
      [apply String.eqb_eq in Ep; subst docType|]].
  - destruct platform as [| |[[]|msg]]; simpl createParserWorker; cbv iota.
    + apply fallback_xlsx_run.
    + apply fallback_xlsx_run.
    + apply worker_xlsx_run.
    + apply (run_shape_error []); [constructor|exact I].
  - destruct platform as [| |[[]|msg]]; simpl createParserWorker; cbv iota.
    + rewrite fallback_pptx. apply (run_shape_error []); [constructor|exact I].
    + rewrite fallback_pptx. apply (run_shape_error []); [constructor|exact I].
    + apply worker_pptx_run.
    + apply (run_shape_error []); [constructor|exact I].
  - destruct platform as [| |[[]|msg]]; simpl createParserWorker; cbv iota.
    + rewrite fallback_unsupported by assumption.
      apply (run_shape_error []); [constructor|exact I].
    + rewrite fallback_unsupported by assumption.
      apply (run_shape_error []); [constructor|exact I].
    + rewrite unsupported_view; [|exact Ex|exact Ep].
      apply (run_shape_error []); [constructor|exact I].
    + apply (run_shape_error []); [constructor|exact I].
Qed.

End Requests.

(** ** Terminal outcome and progress of a request *)

Section Outcome.
Context {ArrayBuffer Worksheet : Type} `{!Parsers ArrayBuffer Worksheet}.

(** C1. Every conversion request, whatever the document type, the
    platform (worker running, worker failing to start, no worker) and
    the behaviour of the parsers, delivers exactly one terminal outcome:
    either one rendered result and no error, or one error and no
    result. *)
Theorem exactly_one_terminal_outcome
    (platform : WorkerPlatform) (arrayBuffer : ArrayBuffer) (docType : string) :
  let tr := parseLargeFile platform arrayBuffer docType in
  (exists html, results tr = [RenderParsedContent html] /\ errors tr = []) \/
  (exists message, results tr = [] /\ errors tr = [HandleParsingError message]).
Proof.
  intros tr. destruct (request_run platform arrayBuffer docType) as (q & t & E & Hq & Ht & _).
  fold tr in E. rewrite E, results_app, errors_app.
  rewrite (quiet_results q Hq), (quiet_errors q Hq).
  destruct t as [p|html|message|]; try discriminate Ht.
  - left. exists html. split; reflexivity.
  - right. exists message. split; reflexivity.
Qed.

(** C2. For every conversion request the percentages shown before the
    terminal outcome are non-decreasing, and when the request succeeds
    (a result is delivered) the last percentage shown is 100. *)
Theorem progress_non_decreasing_to_100
    (platform : WorkerPlatform) (arrayBuffer : ArrayBuffer) (docType : string) :
  let tr := parseLargeFile platform arrayBuffer docType in
  non_decreasing (progress_values (before_terminal tr)) /\
  (results tr <> [] -> last (progress_values (before_terminal tr)) = Some 100).
Proof.
  intros tr.
  destruct (request_run platform arrayBuffer docType) as (q & t & E & Hq & Ht & Hnd & H100).
  fold tr in E. rewrite E, (quiet_before_terminal q t Hq Ht).
  split; [exact Hnd|]. intros Hres. apply H100.
  rewrite results_app, (quiet_results q Hq) in Hres.
  destruct t; try reflexivity; exfalso; apply Hres; reflexivity.
Qed.

End Outcome.

(** The worksheets A, B and C on the worker: 10, 20, 20, 40, 60, 100. *)
Lemma progress_non_decreasing_to_100_witness :
  let tr := parseLargeFile (Started (Normal tt)) Fixture.abc "xlsx" in
  progress_values (before_terminal tr) = [10; 20; 20; 40; 60; 100] /\
  non_decreasing (progress_values (before_terminal tr)) /\
  last (progress_values (before_terminal tr)) = Some 100.
Proof.
  intros tr.
  destruct (progress_non_decreasing_to_100 (Started (Normal tt)) Fixture.abc "xlsx")
    as [Hnd H100].
  split; [vm_compute; reflexivity|]. split; [exact Hnd|].
  apply H100. vm_compute. discriminate.
Defined.

(** ** Spreadsheets whose worksheets all convert *)

Section Spreadsheet.
Context {ArrayBuffer Worksheet : Type} `{!Parsers ArrayBuffer Worksheet}.

Lemma worker_loop_success workbook n names htmls :
  converts_to workbook names htmls ->
  forall i htmlContent,
    outcome_of (parseXlsx_loop workbook n names i htmlContent) =
      Normal (htmlContent +:+ concat_strings (worksheet_blocks i names htmls)) /\
    worker_view (parseXlsx_loop workbook n names i htmlContent) =
      map (fun j => UpdateProgress (sheet_progress j n))
          (seqZ i (Z.of_nat (length names))).
Proof.
  induction 1 as [|sheetName html names htmls Hc _ IH]; intros i htmlContent.
  - split; [|reflexivity]. simpl. rewrite append_nil_r. reflexivity.
  - rewrite worker_loop_outcome, worker_loop_step, Hc.
    destruct (IH (i + 1) (htmlContent +:+ worksheet_block i sheetName html)) as [-> ->].
    split.
    + rewrite append_assoc. reflexivity.
    + rewrite (seqZ_cons i) by (simpl length; lia).
      replace (Z.pred (Z.of_nat (length (sheetName :: names))))
        with (Z.of_nat (length names)) by (simpl length; lia).
      reflexivity.
Qed.




Lemma yields_app a b : yields (a ++ b) = (yields a + yields b)%nat.
Proof. unfold yields. rewrite List.filter_app, length_app. reflexivity. Qed.

Lemma chunk_loop_yields workbook n names htmls :
  converts_to workbook names htmls ->
  forall i htmlContent,
    yields (trace_of (parseXlsxInChunks_loop workbook n names i htmlContent)) =
    length names.
Proof.
  induction 1 as [|sheetName html names htmls Hc _ IH]; intros i htmlContent.
  - reflexivity.
  - rewrite chunk_loop_step, Hc. unfold yields in *. simpl. f_equal. apply IH.
Qed.


(** C4 (what the code does). Without a worker, a presentation request
    calls [parsePptxInChunks], which no script declares: the request ends
    with the reference error as its only effect; nothing is converted, no
    suspension takes place and no result is delivered.  This holds for
    every payload. *)
Theorem fallback_presentation_is_not_converted (arrayBuffer : ArrayBuffer) :
  script_globals (ArrayBuffer := ArrayBuffer) !! "parsePptxInChunks" = None /\
  parseLargeFile Unsupported arrayBuffer "pptx" =
    [HandleParsingError "parsePptxInChunks is not defined"] /\
  parseLargeFile ConstructorThrows arrayBuffer "pptx" =
    [HandleParsingError "parsePptxInChunks is not defined"] /\
  yields (parseLargeFile Unsupported arrayBuffer "pptx") = 0%nat /\
  results (parseLargeFile Unsupported arrayBuffer "pptx") = [].
Proof.
  assert (E : forall platform, createParserWorker platform = None ->
            parseLargeFile platform arrayBuffer "pptx" =
            [HandleParsingError "parsePptxInChunks is not defined"]).
  { intros platform Hp. unfold parseLargeFile, parseLargeFile_in.
    rewrite Hp. apply fallback_pptx. }
  split; [apply lookup_singleton_ne; discriminate|].
  rewrite !E by reflexivity. repeat split; reflexivity.
Qed.

(** X13. The sibling path: without a worker, a spreadsheet whose worksheets
    all convert is suspended once per worksheet. *)
Lemma fallback_spreadsheet_yields
    (platform : WorkerPlatform) (arrayBuffer : ArrayBuffer)
    (workbook : Workbook Worksheet) (htmls : list string) :
  createParserWorker platform = None ->
  XLSX_read arrayBuffer = Normal workbook ->
  converts_to workbook (SheetNames workbook) htmls ->
  yields (parseLargeFile platform arrayBuffer "xlsx") = length (SheetNames workbook).
Proof.
  intros Hp Hread Hconv. unfold parseLargeFile, parseLargeFile_in. rewrite Hp.
  rewrite fallback_xlsx, parseXlsxInChunks_trace, parseXlsxInChunks_outcome, Hread.
  cbv zeta.
  set (n := Z.of_nat (length (SheetNames workbook))).
  pose proof (chunk_loop_yields workbook n _ _ Hconv 0 (xlsx_header n)) as Hy.
  assert (Y2 : forall l, yields (UpdateProgress 10 :: UpdateProgress 20 :: l) = yields l)
    by reflexivity.
  destruct (loops_agree workbook n (SheetNames workbook) 0 (xlsx_header n)) as [_ Hoc].
  destruct (worker_loop_success workbook n _ _ Hconv 0 (xlsx_header n)) as [Ho _].
  rewrite Hoc, Ho, yields_app, Y2, yields_app, Hy.
  change (yields [UpdateProgress 100]) with 0%nat.
  change (yields [RenderParsedContent ?h]) with 0%nat. lia.
Qed.

End Spreadsheet.



(** ** Escaping *)

Lemma has_char_append c a b :
  Js.has_char c (a +:+ b) = Js.has_char c a || Js.has_char c b.
Proof.
  induction a as [|x a IH]; [reflexivity|].
  change (Ascii.eqb x c || Js.has_char c (a +:+ b) =
          (Ascii.eqb x c || Js.has_char c a) || Js.has_char c b).
  rewrite IH. apply orb_assoc.
Qed.

Lemma replace_all_removes c by_ s :
  Js.has_char c by_ = false -> Js.has_char c (Js.replace_all c by_ s) = false.
Proof.
  intros Hby. induction s as [|x s IH]; [reflexivity|]. simpl.
  destruct (Ascii.eqb x c) eqn:E.
  - rewrite has_char_append, Hby, IH. reflexivity.
  - simpl. rewrite E, IH. reflexivity.
Qed.

Lemma replace_all_keeps_absent c by_ d s :
  Js.has_char d by_ = false -> Js.has_char d s = false ->
  Js.has_char d (Js.replace_all c by_ s) = false.
Proof.
  intros Hby. induction s as [|x s IH]; [reflexivity|]. simpl.
  intros [Hx Hs]%orb_false_iff.
  destruct (Ascii.eqb x c).
  - rewrite has_char_append, Hby, (IH Hs). reflexivity.
  - simpl. rewrite Hx, (IH Hs). reflexivity.
Qed.

(** The output of [escapeHtml] holds none of the characters [<], [>],
    double quote and single quote. *)
Lemma escapeHtml_no_markup (unsafe : string) (c : ascii) :
  In c ["<"; ">"; ascii_of_nat 34; "'"]%char ->
  Js.has_char c (escapeHtml unsafe) = false.
Proof.
  intros Hc. unfold escapeHtml.
  destruct (negb (Js.truthy unsafe)); [reflexivity|].
  destruct Hc as [<-|[<-|[<-|[<-|[]]]]].
  - do 3 (apply replace_all_keeps_absent; [reflexivity|]).
    apply replace_all_removes. reflexivity.
  - do 2 (apply replace_all_keeps_absent; [reflexivity|]).
    apply replace_all_removes. reflexivity.
  - apply replace_all_keeps_absent; [reflexivity|].
    apply replace_all_removes. reflexivity.
  - apply replace_all_removes. reflexivity.
Qed.

(** C3 (what the code does). The name of a worksheet is inserted as it is:
    for the workbook with one worksheet named [<b>] the delivered markup
    holds the raw tag in its heading, and not the text that [escapeHtml]
    makes of the name. *)
Theorem worksheet_name_is_not_escaped :
  let tr := parseLargeFile (Started (Normal tt)) Fixture.tagged "xlsx" in
  exists html,
    results tr = [RenderParsedContent html] /\
    Js.includes "<h4>工作表 1: <b></h4>" html = true /\
    escapeHtml "<b>" = "&lt;b&gt;" /\
    Js.includes (escapeHtml "<b>") html = false.
Proof.
  eexists. split; [vm_compute; reflexivity|].
  split; [vm_compute; reflexivity|]. split; vm_compute; reflexivity.
Qed.

(** ** Slides without text *)

Lemma slides_forEach_blocks l index htmlContent :
  slides_forEach l index htmlContent =
  htmlContent +:+ concat_strings (slide_blocks index l).
Proof.
  revert index htmlContent. induction l as [|slide rest IH]; intros index htmlContent.
  - simpl. rewrite append_nil_r. reflexivity.
  - simpl. rewrite IH, append_assoc. reflexivity.
Qed.

Lemma slide_blocks_lookup l : forall index k slide,
  l !! k = Some slide ->
  exists before after,
    slide_blocks index l = before ++ slide_html (index + Z.of_nat k) slide :: after.
Proof.
  induction l as [|s rest IH]; intros index k slide Hk; [discriminate|].
  destruct k as [|k]; simpl in Hk.
  - injection Hk as ->. exists [], (slide_blocks (index + 1) rest).
    simpl. rewrite Z.add_0_r. reflexivity.
  - destruct (IH (index + 1) k slide Hk) as (before & after & E).
    exists (slide_html index s :: before), after.
    replace (index + Z.of_nat (S k)) with (index + 1 + Z.of_nat k) by lia.
    simpl. rewrite E. reflexivity.
Qed.

Section Slides.
Context {ArrayBuffer Worksheet : Type} `{!Parsers ArrayBuffer Worksheet}.

(** C9. A slide whose [text] is absent or an empty array is rendered as
    its opening markup, the no-content placeholder and the closing
    markup, and not with a slide-content container; and the markup
    delivered for the presentation holds this block at the place of the
    slide. *)
Theorem slide_without_text_gets_placeholder
    (arrayBuffer : ArrayBuffer) (presentation : Presentation)
    (k : nat) (slide : Slide) :
  PptxParser_parse arrayBuffer = Normal presentation ->
  slides presentation !! k = Some slide ->
  text slide = None \/ text slide = Some [] ->
  let block := slide_open (Z.of_nat k) +:+ no_content +:+ "</div><hr>" in
  slide_html (Z.of_nat k) slide = block /\
  block <> slide_open (Z.of_nat k) +:+ (slide_content_open +:+ "</div>") +:+ "</div><hr>" /\
  exists before after,
    results (parseLargeFile (Started (Normal tt)) arrayBuffer "pptx") =
    [RenderParsedContent (before +:+ block +:+ after)].
Proof.
  intros Hparse Hk Hempty block.
  assert (Hb : slide_html (Z.of_nat k) slide = block).
  { unfold slide_html, slide_body, block. destruct Hempty as [-> | ->]; reflexivity. }
  split; [exact Hb|]. split.
  - unfold block. intros E. apply (inj (String.append _)) in E.
    vm_compute in E. discriminate E.
  - destruct (slide_blocks_lookup _ 0 k slide Hk) as (l1 & l2 & E).
    rewrite Z.add_0_l, Hb in E.
    exists (pptx_header (Z.of_nat (length (slides presentation))) +:+ concat_strings l1),
           (concat_strings l2 +:+ "</div>").
    unfold parseLargeFile, parseLargeFile_in. simpl createParserWorker. cbv iota.
    change ("parse-" +:+ "pptx") with "parse-pptx".
    rewrite parsePptx_view, Hparse. unfold results. simpl.
    rewrite slides_forEach_blocks, E, concat_strings_app.
    change (concat_strings (block :: l2)) with (block +:+ concat_strings l2).
    rewrite !append_assoc. reflexivity.
Qed.

End Slides.

(** The second slide of the sample deck has an empty text array. *)
Lemma slide_without_text_gets_placeholder_witness :
  let block := slide_open 1 +:+ no_content +:+ "</div><hr>" in
  slide_html 1 {| text := Some [] |} = block /\
  Js.includes "no-content" block = true /\
  Js.includes "slide-content" block = false /\
  exists before after,
    results (parseLargeFile (Started (Normal tt)) Fixture.deck "pptx") =
    [RenderParsedContent (before +:+ block +:+ after)].
Proof.
  intros block.
  destruct (slide_without_text_gets_placeholder Fixture.deck
              {| slides :=
                   [ {| text := Some [ {| level := 0; content := "Q&A <live>" |};
                                       {| level := 2; content := "it's on" |} ] |};
                     {| text := Some [] |} ] |}
              1%nat {| text := Some [] |})
    as (H1 & _ & H3).
  - reflexivity.
  - reflexivity.
  - right. reflexivity.
  - split; [exact H1|]. split; [vm_compute; reflexivity|].
    split; [vm_compute; reflexivity|]. exact H3.
Defined.

(** ** A worker that fails to start *)

Lemma quiet_not_error q message : quiet q -> ~ In (HandleParsingError message) q.
Proof.
  intros Hq Hin. unfold quiet in Hq. rewrite List.Forall_forall in Hq.
  specialize (Hq _ Hin). discriminate Hq.
Qed.

Section Crash.
Context {ArrayBuffer Worksheet : Type} `{!Parsers ArrayBuffer Worksheet}.

(** Every error that a running worker makes the page report starts with
    one of three prefixes. *)
Lemma worker_error_prefix arrayBuffer docType message :
  In (HandleParsingError message)
     (parseLargeFile (Started (Normal tt)) arrayBuffer docType) ->
  exists rest,
    message = "Excel解析失败: " +:+ rest \/
    message = "PowerPoint解析失败: " +:+ rest \/
    message = "不支持的解析类型: " +:+ rest.
Proof.
  unfold parseLargeFile, parseLargeFile_in. simpl createParserWorker. cbv iota.
  destruct (String.eqb docType "xlsx") eqn:Ex;
    [apply String.eqb_eq in Ex; subst docType|];
    [|destruct (String.eqb docType "pptx") eqn:Ep;
      [apply String.eqb_eq in Ep; subst docType|]].
  - change ("parse-" +:+ "xlsx") with "parse-xlsx". rewrite parseXlsx_view.
    destruct (XLSX_read arrayBuffer) as [workbook|msg].
    + cbv zeta.
      destruct (worker_loop_view_chain workbook
                  (xlsx_header (Z.of_nat (length (SheetNames workbook))))) as (Hq & _).
      cbv zeta in Hq.
      intros [H|[H|H]]; try discriminate H.
      apply in_app_or in H. destruct H as [H|H].
      * exfalso. exact (quiet_not_error _ _ Hq H).
      * destruct (outcome_of _) as [h|msg].
        -- destruct H as [H|[H|[]]]; discriminate H.
        -- destruct H as [H|[]]. injection H as <-. exists msg. auto.
    + intros [H|[H|[]]]; [discriminate H|]. injection H as <-. exists msg. auto.
  - change ("parse-" +:+ "pptx") with "parse-pptx". rewrite parsePptx_view.
    destruct (PptxParser_parse arrayBuffer) as [presentation|msg].
    + intros [H|[H|[H|[H|[H|[]]]]]]; discriminate H.
    + intros [H|[H|[H|[]]]]; try discriminate H. injection H as <-. exists msg. auto.
  - rewrite unsupported_view; [|exact Ex|exact Ep].
    intros [H|[]]. injection H as <-. exists ("parse-" +:+ docType). auto.
Qed.

(** C5 (amended). When the worker terminates abnormally, the page
    reports one error through [handleParsingError], the same handler as
    for parse errors, with the text [解析失败: ] followed by the message
    of the error event, and nothing else happens for the request.  That
    text differs from every error that a running worker makes the page
    report. *)
Theorem worker_crash_is_reported
    (arrayBuffer : ArrayBuffer) (docType message : string) :
  parseLargeFile (Started (Throw message)) arrayBuffer docType =
    [HandleParsingError ("解析失败: " +:+ message)] /\
  forall (arrayBuffer' : ArrayBuffer) (docType' : string),
    ~ In (HandleParsingError ("解析失败: " +:+ message))
         (parseLargeFile (Started (Normal tt)) arrayBuffer' docType').
Proof.
  split; [reflexivity|].
  intros arrayBuffer' docType' Hin.
  destruct (worker_error_prefix _ _ _ Hin) as (rest & [E|[E|E]]);
    vm_compute in E; discriminate E.
Qed.

End Crash.

(** A worker that fails to start with message [boom]. *)
Lemma worker_crash_is_reported_witness :
  parseLargeFile (Started (Throw "boom")) Fixture.abc "xlsx" =
    [HandleParsingError "解析失败: boom"] /\
  ~ In (HandleParsingError "解析失败: boom")
       (parseLargeFile (Started (Normal tt)) (Fixture.Corrupt "boom") "xlsx").
Proof.
  destruct (worker_crash_is_reported Fixture.abc "xlsx" "boom") as [H1 H2].
  split; [exact H1|]. exact (H2 (Fixture.Corrupt "boom") "xlsx").
Defined.

(** C5 (as stated) fails: the error reported for a worker that crashed with
    message [boom] is the very error reported for a spreadsheet whose
    parsing fails on the main thread with message [解析失败: boom]; nothing
    in what is delivered tells an executor crash from a parse error. *)
Lemma worker_crash_not_distinct :
  errors (parseLargeFile (Started (Throw "boom")) Fixture.abc "xlsx") =
    [HandleParsingError "解析失败: boom"] /\
  errors (parseLargeFile Unsupported (Fixture.Corrupt "解析失败: boom") "xlsx") =
    [HandleParsingError "解析失败: boom"].
Proof. split; vm_compute; reflexivity. Qed.

(** ** The progress reporter *)

(** What the style engine makes of the text of an integer followed by the
    percent sign. *)
Lemma is_digit_pretty_N_char x : Css.is_digit (pretty_N_char x) = true.
Proof.
  unfold pretty_N_char.
  destruct x as [|[[[[|[]|]|[[]|[]|]|]|[[|[]|]|[[]|[]|]|]|]|[[[|[]|]|[[]|[]|]|]|[[|[]|]|[[]|[]|]|]|]|]];
    reflexivity.
Qed.

Lemma pretty_N_go_append x : forall s t, pretty_N_go x s +:+ t = pretty_N_go x (s +:+ t).
Proof.
  induction (N.lt_wf_0 x) as [x _ IH]; intros s t.
  destruct (N.eq_dec x 0%N) as [->|Hx].
  - rewrite !pretty_N_go_0. reflexivity.
  - rewrite (pretty_N_go_step x s), (pretty_N_go_step x (s +:+ t)) by lia.
    rewrite IH by (apply N.div_lt; lia). reflexivity.
Qed.

Lemma digits_percent_digit c s :
  Css.is_digit c = true -> Css.digits_percent s = true ->
  Css.digits_percent (String c s) = true.
Proof.
  intros Hc Hs. change (Css.digits_percent (String c s)) with
    (if Ascii.eqb c "%" then match s with EmptyString => true | String _ _ => false end
     else Css.is_digit c && Css.digits_percent s).
  destruct (Ascii.eqb_spec c "%") as [->|_]; [discriminate Hc|].
  rewrite Hc, Hs. reflexivity.
Qed.

Lemma unsigned_percentage_go x : forall c s,
  Css.is_digit c = true -> Css.digits_percent s = true ->
  Css.unsigned_percentage (pretty_N_go x (String c s)) = true.
Proof.
  induction (N.lt_wf_0 x) as [x _ IH]; intros c s Hc Hs.
  destruct (N.eq_dec x 0%N) as [->|Hx].
  - rewrite pretty_N_go_0. unfold Css.unsigned_percentage. rewrite Hc, Hs. reflexivity.
  - rewrite pretty_N_go_step by lia.
    apply IH; [apply N.div_lt; lia|apply is_digit_pretty_N_char|].
    apply digits_percent_digit; assumption.
Qed.

Lemma unsigned_percentage_show (percent : Z) :
  Css.unsigned_percentage (Js.show percent +:+ "%") = (0 <=? percent).
Proof.
  destruct percent as [|p|p].
  - reflexivity.
  - change (Js.show (Z.pos p)) with (pretty_N_go (N.pos p) "").
    rewrite pretty_N_go_append, pretty_N_go_step by lia.
    change ("" +:+ "%") with "%".
    apply unsigned_percentage_go; [apply is_digit_pretty_N_char|reflexivity].
  - reflexivity.
Qed.

Lemma set_width_show (width : string) (percent : Z) :
  Css.set_width width (Js.show percent +:+ "%") =
  if percent <? 0 then width else Js.show percent +:+ "%".
Proof.
  unfold Css.set_width. rewrite unsigned_percentage_show.
  destruct (Z.leb_spec 0 percent), (Z.ltb_spec percent 0); try lia; reflexivity.
Qed.

(** C7 (as stated) fails: nothing is clamped.  150 is shown as [150%],
    where clamping would show [100%].  And -5, coming after 40, is shown
    as [-5%] in the status text while the bar keeps its width of [40%]
    (the style engine drops the negative width), where clamping would
    show [0%] in both. *)
Lemma reporter_does_not_clamp :
  updateProgressIndicator 150 initial_indicator =
    {| progressBar := Some "150%"; progressText := Some "正在解析: 150%" |} /\
  updateProgressIndicator (clamp 150) initial_indicator =
    {| progressBar := Some "100%"; progressText := Some "正在解析: 100%" |} /\
  updateProgressIndicator (-5) (updateProgressIndicator 40 initial_indicator) =
    {| progressBar := Some "40%"; progressText := Some "正在解析: -5%" |} /\
  updateProgressIndicator (clamp (-5)) (updateProgressIndicator 40 initial_indicator) =
    {| progressBar := Some "0%"; progressText := Some "正在解析: 0%" |}.
Proof. repeat split; vm_compute; reflexivity. Qed.

(** C7 (amended). For a percentage that is a safe integer, the reporter
    clamps nothing.  When both elements of the indicator exist, the status
    text becomes the prefix, the number as it was given and [%]; the width
    assigned is the number as it was given and [%], which the bar takes
    when the number is not negative and drops otherwise, keeping the
    width it had.  When an element is missing nothing changes.  Different
    inputs give different indicators, and for inputs in [0, 100] what is
    written is what clamping would give. *)
Theorem reporter_formats_without_clamping (percent : Z) (dom : Indicator) :
  Js.safe_integer percent ->
  (forall bar txt,
     progressBar dom = Some bar -> progressText dom = Some txt ->
     updateProgressIndicator percent dom =
       {| progressBar := Some (if percent <? 0 then bar else Js.show percent +:+ "%");
          progressText := Some ("正在解析: " +:+ Js.show percent +:+ "%") |}) /\
  (progressBar dom = None \/ progressText dom = None ->
     updateProgressIndicator percent dom = dom) /\
  (forall other bar txt,
     Js.safe_integer other ->
     progressBar dom = Some bar -> progressText dom = Some txt ->
     updateProgressIndicator percent dom = updateProgressIndicator other dom ->
     percent = other) /\
  (0 <= percent <= 100 ->
     updateProgressIndicator percent dom = updateProgressIndicator (clamp percent) dom).
Proof.
  intros _. split; [|split; [|split]].
  - intros bar txt Hb Ht. unfold updateProgressIndicator. rewrite Hb, Ht.
    rewrite set_width_show. reflexivity.
  - intros [H|H]; unfold updateProgressIndicator; rewrite H;
      [|destruct (progressBar dom)]; reflexivity.
  - intros other bar txt _ Hb Ht. unfold updateProgressIndicator. rewrite Hb, Ht.
    intros E. injection E as _ E.
    assert (A : forall a b : string, a +:+ "%" = b +:+ "%" -> a = b).
    { clear. induction a as [|x a IH]; intros [|y b] H.
      - reflexivity.
      - exfalso. destruct b; discriminate H.
      - exfalso. destruct a; discriminate H.
      - injection H as -> H. f_equal. apply IH. exact H. }
    apply (A (Js.show percent) (Js.show other)) in E. apply (inj pretty) in E. exact E.
  - intros H. unfold clamp. rewrite Z.max_l, Z.min_l by lia. reflexivity.
Qed.

(** The percentage 40, with and without the elements of the indicator. *)
Lemma reporter_formats_without_clamping_witness :
  Js.safe_integer 40 /\
  updateProgressIndicator 40 initial_indicator =
    {| progressBar := Some "40%"; progressText := Some "正在解析: 40%" |} /\
  updateProgressIndicator 40 initial_indicator =
    updateProgressIndicator (clamp 40) initial_indicator /\
  updateProgressIndicator 40 {| progressBar := None; progressText := None |} =
    {| progressBar := None; progressText := None |}.
Proof.
  assert (S40 : Js.safe_integer 40) by (unfold Js.safe_integer; lia).
  destruct (reporter_formats_without_clamping 40 initial_indicator S40) as (H1 & _ & _ & H4).
  destruct (reporter_formats_without_clamping 40 {| progressBar := None; progressText := None |} S40)
    as (_ & H2 & _).
  split; [exact S40|].
  split; [exact (H1 "0%" "准备解析..." eq_refl eq_refl)|].
  split; [apply H4; lia|]. apply H2. left. reflexivity.
Defined.

(** ** The windowed renderer *)

Module RendererFacts.
Import Renderer.

(** The width of the index range, whatever the scroll offset. *)
Lemma index_range_width viewportHeight scrollTop :
  end_index viewportHeight scrollTop - start_index scrollTop <=
  ceil_div10 (viewportHeight + 2 * buffer) + 1.
Proof.
  unfold end_index, start_index, ceil_div10, floor_div10, buffer.
  Z.div_mod_to_equations. lia.
Qed.

Lemma start_index_nonneg scrollTop : 0 <= start_index scrollTop.
Proof. unfold start_index. lia. Qed.

Lemma clones_length {Node} (allElements : list Node) start end_ :
  0 <= start ->
  Z.of_nat (length (clones allElements start end_)) =
  Z.max 0 (Z.min end_ (Z.of_nat (length allElements)) -
           Z.min start (Z.of_nat (length allElements))).
Proof.
  intros Hs. unfold clones. rewrite length_take, length_drop. lia.
Qed.

Section Frames.
Context {Node : Type}.
Variable lay : Layout Node.

(** A frame whose start index is the current one changes nothing. *)
Lemma same_start_no_render scrollTop (st : State Node) :
  start_index scrollTop = currentStart st ->
  renderVisibleContent lay scrollTop st = st.
Proof.
  intros E. unfold renderVisibleContent, rerenders.
  rewrite E, Z.eqb_refl. reflexivity.
Qed.

(** A frame whose start index differs replaces the slice. *)
Lemma new_start_renders scrollTop (st : State Node) :
  start_index scrollTop <> currentStart st ->
  renderVisibleContent lay scrollTop st =
  {| currentStart := start_index scrollTop;
     slice := clones (children lay) (start_index scrollTop)
                (end_index (clientHeight lay) scrollTop);
     translateY := Some (start_index scrollTop * 10) |}.
Proof.
  intros NE. unfold renderVisibleContent, rerenders.
  destruct (Z.eqb_spec (start_index scrollTop) (currentStart st)); [contradiction|].
  reflexivity.
Qed.

(** The size of the slice is bounded in every reachable state. *)
Lemma bounded_initial : 0 <= clientHeight lay -> bounded lay initial.
Proof.
  intros H. unfold bounded, ceil_div10, buffer. simpl.
  split; [Z.div_mod_to_equations; lia|lia].
Qed.

Lemma bounded_step scrollTop st :
  bounded lay st -> bounded lay (renderVisibleContent lay scrollTop st).
Proof.
  intros Hb.
  destruct (Z.eq_dec (start_index scrollTop) (currentStart st)) as [E|NE].
  - rewrite same_start_no_render by exact E. exact Hb.
  - rewrite new_start_renders by exact NE. unfold bounded. simpl.
    rewrite clones_length by apply start_index_nonneg.
    pose proof (index_range_width (clientHeight lay) scrollTop).
    pose proof (start_index_nonneg scrollTop).
    assert (0 <= ceil_div10 (clientHeight lay + 2 * buffer) + 1).
    { destruct Hb as [Hb _]. lia. }
    split; lia.
Qed.

Lemma bounded_run frames :
  forall st, bounded lay st -> bounded lay (run lay frames st).
Proof.
  induction frames as [|scrollTop frames IH]; intros st Hb; [exact Hb|].
  simpl. apply IH, bounded_step, Hb.
Qed.

(** Frames whose start index is 0 leave the initial state as it is. *)
Lemma run_at_start_0 frames :
  Forall (fun scrollTop => start_index scrollTop = 0) frames ->
  run lay frames initial = initial.
Proof.
  induction 1 as [|scrollTop frames H0 _ IH]; [reflexivity|].
  simpl. rewrite same_start_no_render by exact H0. exact IH.
Qed.

End Frames.

Lemma above_threshold {Node} (html : string) (lay : Layout Node) :
  threshold < Js.js_length html ->
  renderParsedContent html lay = Windowed (offsetHeight lay) initial.
Proof.
  intros H. unfold renderParsedContent, enableVirtualScrolling.
  apply Z.ltb_lt in H. rewrite H.
  rewrite same_start_no_render by reflexivity. reflexivity.
Qed.

(** C8 (amended). For every HTML payload above the threshold of 500000
    characters, every layout with a non-negative viewport height and every
    sequence of scroll offsets (whole pixels), the renderer is in windowed
    mode and the number of top-level nodes attached to the live slice is at
    most [ceil((viewportHeight + 2 * 200) / 10) + 1], and at most the
    number of top-level nodes. *)
Theorem windowed_slice_is_bounded {Node : Type}
    (html : string) (lay : Layout Node) (frames : list Z) :
  threshold < Js.js_length html ->
  0 <= clientHeight lay ->
  let p := after_frames lay frames (renderParsedContent html lay) in
  (exists st, p = Windowed (offsetHeight lay) st) /\
  attached p <= ceil_div10 (clientHeight lay + 2 * buffer) + 1 /\
  attached p <= Z.of_nat (length (children lay)).
Proof.
  intros Hbig Hvh p. subst p. rewrite (above_threshold html lay Hbig). simpl.
  destruct (bounded_run lay frames initial (bounded_initial lay Hvh)) as [B1 B2].
  split; [eexists; reflexivity|]. split; [exact B1|exact B2].
Qed.

Lemma long_html_above_threshold : threshold < Js.js_length Fixture.long_html.
Proof. vm_compute. reflexivity. Qed.

Lemma single_html_above_threshold : threshold < Js.js_length Fixture.single_html.
Proof. vm_compute. reflexivity. Qed.

Lemma numbered_html_above_threshold : threshold < Js.js_length Fixture.numbered_html.
Proof. vm_compute. reflexivity. Qed.

(** 200 numbered paragraphs in a viewport of 600 pixels: after a frame at
    scroll offset 215 the slice holds the paragraphs 2 to 102, which is
    101 nodes, the bound for that viewport. *)
Lemma windowed_slice_is_bounded_witness :
  threshold < Js.js_length Fixture.numbered_html /\
  0 <= clientHeight Fixture.numbered_layout /\
  let p := after_frames Fixture.numbered_layout [215]
             (renderParsedContent Fixture.numbered_html Fixture.numbered_layout) in
  attached p <= 101 /\
  attached p <= 200 /\
  attached_nodes p = map Fixture.numbered (seqZ 2 101).
Proof.
  assert (Hvh : 0 <= clientHeight Fixture.numbered_layout) by (vm_compute; discriminate).
  split; [exact numbered_html_above_threshold|]. split; [exact Hvh|].
  intros p.
  destruct (windowed_slice_is_bounded Fixture.numbered_html Fixture.numbered_layout [215]
              numbered_html_above_threshold Hvh)
    as (_ & H1 & H2).
  split; [exact H1|]. split; [exact H2|].
  subst p.
  rewrite (above_threshold Fixture.numbered_html Fixture.numbered_layout
             numbered_html_above_threshold).
  vm_compute. reflexivity.
Defined.

(** C8 (as stated) fails twice.  With a viewport of 600 pixels the bound
    of the claim is (600 + 2 * 200) / 10 = 100 nodes, and a frame at scroll
    offset 215 attaches 101 of the 200 top-level nodes.  And for the output
    of a conversion, which has a single top-level element, scrolling to the
    end (offset: measured height less viewport height) never attaches that
    element, however many frames follow. *)
Lemma windowed_bound_exceeded_and_final_unit_missing :
  (threshold < Js.js_length Fixture.long_html /\
   (clientHeight Fixture.long_layout + 2 * buffer) / 10 = 100 /\
   attached (after_frames Fixture.long_layout [215]
               (renderParsedContent Fixture.long_html Fixture.long_layout)) = 101) /\
  (threshold < Js.js_length Fixture.single_html /\
   offsetHeight Fixture.single_layout - clientHeight Fixture.single_layout = 19400 /\
   forall n : nat,
     attached_nodes
       (after_frames Fixture.single_layout (replicate n 19400)
          (renderParsedContent Fixture.single_html Fixture.single_layout)) = []).
Proof.
  split.
  - split; [exact long_html_above_threshold|]. split; [reflexivity|].
    rewrite (above_threshold Fixture.long_html Fixture.long_layout long_html_above_threshold). vm_compute. reflexivity.
  - split; [exact single_html_above_threshold|]. split; [reflexivity|].
    intros n. rewrite (above_threshold Fixture.single_html Fixture.single_layout single_html_above_threshold). simpl.
    destruct n as [|n]; [reflexivity|].
    change (replicate (S n) 19400) with (19400 :: replicate n 19400).
    unfold run. simpl fold_left.
    rewrite new_start_renders by (vm_compute; discriminate).
    set (st := {| currentStart := start_index 19400;
                  slice := clones (children Fixture.single_layout) (start_index 19400)
                             (end_index (clientHeight Fixture.single_layout) 19400);
                  translateY := Some (start_index 19400 * 10) |}).
    assert (Hst : slice st = []) by reflexivity.
    assert (Hfix : forall k, fold_left
                     (fun st0 scrollTop => renderVisibleContent Fixture.single_layout scrollTop st0)
                     (replicate k 19400) st = st).
    { induction k as [|k IH]; [reflexivity|].
      change (replicate (S k) 19400) with (19400 :: replicate k 19400).
      simpl fold_left. rewrite same_start_no_render by reflexivity. exact IH. }
    rewrite Hfix. exact Hst.
Qed.

(** C10 (amended). A frame re-renders exactly when its start index differs
    from [currentStart], which is 0 at first; so as long as no frame had
    another start index, nothing is rendered: for a payload above the
    threshold and frames whose start indices are all 0, the first call at
    scroll offset 0 included, the slice stays empty.  After a frame at some
    offset, a frame with the same start index leaves the state as it is,
    whatever its end index (another offset, another viewport height). *)
Theorem rerender_only_on_new_start {Node : Type}
    (lay : Layout Node) (st : State Node) (scrollTop : Z) :
  (rerenders scrollTop st = true <-> start_index scrollTop <> currentStart st) /\
  (rerenders scrollTop st = false -> renderVisibleContent lay scrollTop st = st) /\
  currentStart (@initial Node) = 0 /\
  (forall (html : string) (frames : list Z),
     threshold < Js.js_length html ->
     Forall (fun s => start_index s = 0) frames ->
     after_frames lay frames (renderParsedContent html lay) =
       Windowed (offsetHeight lay) initial /\
     attached_nodes (after_frames lay frames (renderParsedContent html lay)) = []) /\
  (forall (lay' : Layout Node) (scrollTop' : Z),
     start_index scrollTop' = start_index scrollTop ->
     renderVisibleContent lay' scrollTop' (renderVisibleContent lay scrollTop st) =
     renderVisibleContent lay scrollTop st).
Proof.
  split; [|split; [|split; [|split]]].
  - unfold rerenders. destruct (Z.eqb_spec (start_index scrollTop) (currentStart st));
      simpl; split; intros; try congruence; try discriminate; reflexivity.
  - unfold renderVisibleContent. intros ->. reflexivity.
  - reflexivity.
  - intros html frames Hbig H0. rewrite (above_threshold html lay Hbig). simpl.
    rewrite (run_at_start_0 lay frames H0). split; reflexivity.
  - intros lay' scrollTop' E. apply same_start_no_render. rewrite E.
    destruct (Z.eq_dec (start_index scrollTop) (currentStart st)) as [E0|NE].
    + rewrite same_start_no_render by exact E0. exact E0.
    + rewrite new_start_renders by exact NE. reflexivity.
Qed.

(** Frames at offsets 0, 100 and 209 render nothing; offsets 300 and 305 share
    the start index 10 but not the end index, and the second changes nothing. *)
Lemma rerender_only_on_new_start_witness :
  after_frames Fixture.long_layout [0; 100; 209]
    (renderParsedContent Fixture.long_html Fixture.long_layout) =
    Windowed (offsetHeight Fixture.long_layout) initial /\
  end_index 600 300 <> end_index 600 305 /\
  renderVisibleContent Fixture.long_layout 305
    (renderVisibleContent Fixture.long_layout 300 initial) =
  renderVisibleContent Fixture.long_layout 300 initial.
Proof.
  destruct (rerender_only_on_new_start Fixture.long_layout initial 300)
    as (_ & _ & _ & H4 & H5).
  split; [|split].
  - apply (H4 Fixture.long_html [0; 100; 209] long_html_above_threshold).
    repeat constructor.
  - vm_compute. discriminate.
  - apply (H5 Fixture.long_layout 305). reflexivity.
Defined.

(** C10 (as stated) fails: after a frame at scroll offset 300 (start index
    10, 100 nodes attached), a frame back at scroll offset 0 has start
    index 0 and renders a slice: the first 80 nodes. *)
Lemma start_0_renders_after_scrolling_back :
  start_index 300 = 10 /\
  start_index 0 = 0 /\
  attached (after_frames Fixture.long_layout [300]
              (renderParsedContent Fixture.long_html Fixture.long_layout)) = 100 /\
  attached (after_frames Fixture.long_layout [300; 0]
              (renderParsedContent Fixture.long_html Fixture.long_layout)) = 80 /\
  rerenders 0 (renderVisibleContent Fixture.long_layout 300 initial) = true.
Proof.
  split; [reflexivity|]. split; [reflexivity|].
  rewrite (above_threshold Fixture.long_html Fixture.long_layout long_html_above_threshold).
  repeat split; vm_compute; reflexivity.
Qed.

End RendererFacts.

(** * Further properties *)

(** ** [escapeHtml] *)

Lemma replace_all_app c by_ a b :
  Js.replace_all c by_ (a +:+ b) = Js.replace_all c by_ a +:+ Js.replace_all c by_ b.
Proof.
  induction a as [|x a IH]; [reflexivity|].
  change (String x a +:+ b) with (String x (a +:+ b)). simpl.
  rewrite IH. destruct (Ascii.eqb x c); [|reflexivity].
  symmetry. apply append_assoc.
Qed.

Lemma replace_all_other c by_ x s :
  Ascii.eqb x c = false ->
  Js.replace_all c by_ (String x s) = String x (Js.replace_all c by_ s).
Proof. intros E. simpl. rewrite E. reflexivity. Qed.

Lemma five_replacements_app a b :
  five_replacements (a +:+ b) = five_replacements a +:+ five_replacements b.
Proof. unfold five_replacements. rewrite !replace_all_app. reflexivity. Qed.

Lemma five_replacements_char c :
  five_replacements (String c "") = escape_char c.
Proof.
  unfold five_replacements, escape_char.
  destruct (Ascii.eqb c "&") eqn:E1; [apply Ascii.eqb_eq in E1; subst c; reflexivity|].
  rewrite (replace_all_other _ _ _ _ E1).
  destruct (Ascii.eqb c "<") eqn:E2; [apply Ascii.eqb_eq in E2; subst c; reflexivity|].
  rewrite (replace_all_other _ _ _ _ E2).
  destruct (Ascii.eqb c ">") eqn:E3; [apply Ascii.eqb_eq in E3; subst c; reflexivity|].
  rewrite (replace_all_other _ _ _ _ E3).
  destruct (Ascii.eqb c (ascii_of_nat 34)) eqn:E4;
    [apply Ascii.eqb_eq in E4; subst c; reflexivity|].
  rewrite (replace_all_other _ _ _ _ E4).
  destruct (Ascii.eqb c "'") eqn:E5; [apply Ascii.eqb_eq in E5; subst c; reflexivity|].
  rewrite (replace_all_other _ _ _ _ E5). reflexivity.
Qed.

Lemma five_replacements_once s : five_replacements s = escape_once s.
Proof.
  induction s as [|c s IH]; [reflexivity|].
  change (String c s) with (String c "" +:+ s).
  rewrite five_replacements_app, five_replacements_char, IH. reflexivity.
Qed.

Lemma escapeHtml_once (unsafe : string) : escapeHtml unsafe = escape_once unsafe.
Proof.
  unfold escapeHtml. destruct unsafe as [|c s]; [reflexivity|].
  apply (five_replacements_once (String c s)).
Qed.

(** X1. The five successive replacements of [escapeHtml] never escape
    twice: for every text the result is what one pass writes, each
    character on its own, the ampersands of the entities written for
    [<], [>] and the quotes included. *)
Theorem escapeHtml_single_pass (unsafe : string) :
  escapeHtml unsafe = escape_once unsafe.
Proof. exact (escapeHtml_once unsafe). Qed.

Lemma escape_char_cases c :
  (special c = false /\ escape_char c = String c "") \/
  (c = "&"%char /\ escape_char c = "&amp;") \/
  (c = "<"%char /\ escape_char c = "&lt;") \/
  (c = ">"%char /\ escape_char c = "&gt;") \/
  (c = ascii_of_nat 34 /\ escape_char c = "&quot;") \/
  (c = "'"%char /\ escape_char c = "&#039;").
Proof.
  unfold escape_char, special.
  destruct (Ascii.eqb c "&") eqn:E1; [apply Ascii.eqb_eq in E1; auto 10|].
  destruct (Ascii.eqb c "<") eqn:E2; [apply Ascii.eqb_eq in E2; auto 10|].
  destruct (Ascii.eqb c ">") eqn:E3; [apply Ascii.eqb_eq in E3; auto 10|].
  destruct (Ascii.eqb c (ascii_of_nat 34)) eqn:E4; [apply Ascii.eqb_eq in E4; auto 10|].
  destruct (Ascii.eqb c "'") eqn:E5; [apply Ascii.eqb_eq in E5; auto 10|].
  left. split; reflexivity.
Qed.

Lemma special_not_amp c : special c = false -> c <> "&"%char.
Proof. intros H ->. discriminate H. Qed.

Lemma escape_once_inj a : forall b, escape_once a = escape_once b -> a = b.
Proof.
  induction a as [|c a IH]; intros [|d b] H.
  - reflexivity.
  - exfalso. change (EmptyString = escape_char d +:+ escape_once b) in H.
    destruct (escape_char_cases d) as [[_ E]|[[_ E]|[[_ E]|[[_ E]|[[_ E]|[_ E]]]]]];
      rewrite E in H; discriminate H.
  - exfalso. change (escape_char c +:+ escape_once a = EmptyString) in H.
    destruct (escape_char_cases c) as [[_ E]|[[_ E]|[[_ E]|[[_ E]|[[_ E]|[_ E]]]]]];
      rewrite E in H; discriminate H.
  - change (escape_char c +:+ escape_once a = escape_char d +:+ escape_once b) in H.
    destruct (escape_char_cases c) as [[Sc Ec]|[[Hc Ec]|[[Hc Ec]|[[Hc Ec]|[[Hc Ec]|[Hc Ec]]]]]];
    destruct (escape_char_cases d) as [[Sd Ed]|[[Hd Ed]|[[Hd Ed]|[[Hd Ed]|[[Hd Ed]|[Hd Ed]]]]]];
    rewrite Ec, Ed in H;
    try (subst c d; apply (inj (String.append _)) in H; f_equal; apply IH; exact H);
    try (subst; discriminate H);
    try (injection H as Hh Hr; exfalso;
         first [apply (special_not_amp _ Sc); congruence
               |apply (special_not_amp _ Sd); congruence]).
    injection H as -> Hr. f_equal. apply IH. exact Hr.
Qed.

(** X2. [escapeHtml] loses nothing: two texts with the same escaped form
    are the same text. *)
Theorem escapeHtml_injective (a b : string) :
  escapeHtml a = escapeHtml b -> a = b.
Proof. rewrite !escapeHtml_once. apply escape_once_inj. Qed.

Lemma escapeHtml_injective_witness :
  escapeHtml "a<b" = "a&lt;b" /\ "a<b" = "a<b".
Proof.
  split; [reflexivity|].
  apply (escapeHtml_injective "a<b" "a<b"). reflexivity.
Defined.

(** X3. A text that holds none of the five characters [&], [<], [>],
    double quote and single quote is returned as it is. *)
Theorem escapeHtml_plain_text (unsafe : string) :
  has_special unsafe = false -> escapeHtml unsafe = unsafe.
Proof.
  rewrite escapeHtml_once.
  induction unsafe as [|c s IH]; [reflexivity|].
  change (special c || has_special s = false ->
          escape_char c +:+ escape_once s = String c s).
  intros [Hc Hs]%orb_false_iff.
  destruct (escape_char_cases c) as [[_ E]|[[H _]|[[H _]|[[H _]|[[H _]|[H _]]]]]];
    try (subst c; discriminate Hc).
  rewrite E, (IH Hs). reflexivity.
Qed.

Lemma escapeHtml_plain_text_witness :
  escapeHtml "Quarterly report 2024" = "Quarterly report 2024".
Proof. apply escapeHtml_plain_text. reflexivity. Defined.

(** X4. Whatever the text, the output of [escapeHtml] holds none of the
    characters [<], [>], double quote and single quote: it can neither
    open or close a tag nor end an attribute value. *)
Theorem escapeHtml_output_has_no_markup (unsafe : string) (c : ascii) :
  In c ["<"; ">"; ascii_of_nat 34; "'"]%char ->
  Js.has_char c (escapeHtml unsafe) = false.
Proof. apply escapeHtml_no_markup. Qed.

Lemma escapeHtml_output_has_no_markup_witness :
  Js.has_char "<" (escapeHtml "<script>alert('x')</script>") = false /\
  escapeHtml "<script>alert('x')</script>" =
    "&lt;script&gt;alert(&#039;x&#039;)&lt;/script&gt;".
Proof.
  split; [|reflexivity].
  apply escapeHtml_output_has_no_markup. left. reflexivity.
Defined.

(** ** The conversion engine on every outcome of the parsers *)

Lemma quiet_with_excel_prefix q : quiet q -> map with_excel_prefix q = q.
Proof.
  induction 1 as [|e q He _ IH]; [reflexivity|]. simpl. rewrite IH.
  destruct e; try reflexivity. discriminate He.
Qed.

Lemma filter_idle_app (a b : list PageEffect) :
  List.filter (fun e => negb (is_idle e)) (a ++ b) =
  List.filter (fun e => negb (is_idle e)) a ++ List.filter (fun e => negb (is_idle e)) b.
Proof. apply List.filter_app. Qed.

Section Engine.
Context {ArrayBuffer Worksheet : Type} `{!Parsers ArrayBuffer Worksheet}.

(** X5. The two executors agree on spreadsheets.  For every payload, what
    the main-thread run makes the page do, its suspensions left out, is
    what the worker run makes it do, except that the worker puts
    [Excel解析失败: ] before the message of an error: same percentages in
    the same order, same result. *)
Theorem executors_agree_on_spreadsheets (arrayBuffer : ArrayBuffer) :
  map with_excel_prefix
    (List.filter (fun e => negb (is_idle e))
       (parseLargeFile Unsupported arrayBuffer "xlsx")) =
  parseLargeFile (Started (Normal tt)) arrayBuffer "xlsx".
Proof.
  unfold parseLargeFile, parseLargeFile_in. simpl createParserWorker. cbv iota.
  change ("parse-" +:+ "xlsx") with "parse-xlsx".
  rewrite parseXlsx_view, fallback_xlsx, parseXlsxInChunks_trace, parseXlsxInChunks_outcome.
  destruct (XLSX_read arrayBuffer) as [workbook|msg]; [|reflexivity].
  cbv zeta. set (n := Z.of_nat (length (SheetNames workbook))).
  destruct (loops_agree workbook n (SheetNames workbook) 0 (xlsx_header n)) as [Hv Ho].
  destruct (worker_loop_view_chain workbook (xlsx_header n)) as (Hq & _).
  cbv zeta in Hq. fold n in Hq.
  rewrite Ho.
  destruct (outcome_of (parseXlsx_loop workbook n (SheetNames workbook) 0 (xlsx_header n)))
    as [h|msg]; simpl;
    rewrite ?app_nil_r, !filter_idle_app, Hv, !map_app, (quiet_with_excel_prefix _ Hq);
    simpl; rewrite <- ?app_assoc; reflexivity.
Qed.

Lemma worker_loop_failure workbook n done htmls bad rest msg :
  converts_to workbook done htmls ->
  sheet_to_html (Sheets workbook !! bad) = Throw msg ->
  forall i htmlContent,
    outcome_of (parseXlsx_loop workbook n (done ++ bad :: rest) i htmlContent) = Throw msg /\
    worker_view (parseXlsx_loop workbook n (done ++ bad :: rest) i htmlContent) =
      map (fun j => UpdateProgress (sheet_progress j n))
          (seqZ i (Z.of_nat (length done) + 1)).
Proof.
  intros Hconv Hbad.
  induction Hconv as [|sheetName html names htmls Hc _ IH]; intros i htmlContent.
  - simpl app. rewrite worker_loop_outcome, worker_loop_step, Hbad. split; reflexivity.
  - change ((sheetName :: names) ++ bad :: rest) with (sheetName :: (names ++ bad :: rest)).
    rewrite worker_loop_outcome, worker_loop_step, Hc.
    destruct (IH (i + 1) (htmlContent +:+ worksheet_block i sheetName html)) as [-> ->].
    split; [reflexivity|].
    rewrite (seqZ_cons i) by (simpl length; lia).
    replace (Z.pred (Z.of_nat (length (sheetName :: names)) + 1))
      with (Z.of_nat (length names) + 1) by (simpl length; lia).
    reflexivity.
Qed.

(** X6. A worksheet that fails to convert aborts the whole spreadsheet.
    When the worksheets before it convert and [sheet_to_html] throws on
    it, the worker run shows 10, 20 and the percentages of the worksheets
    up to and including the failing one, then reports the error of that
    worksheet; no result is delivered and the later worksheets are not
    visited. *)
Theorem failing_worksheet_aborts
    (arrayBuffer : ArrayBuffer) (workbook : Workbook Worksheet)
    (done htmls : list string) (bad : string) (rest : list string) (msg : string) :
  XLSX_read arrayBuffer = Normal workbook ->
  SheetNames workbook = done ++ bad :: rest ->
  converts_to workbook done htmls ->
  sheet_to_html (Sheets workbook !! bad) = Throw msg ->
  let n := Z.of_nat (length (SheetNames workbook)) in
  parseLargeFile (Started (Normal tt)) arrayBuffer "xlsx" =
    [UpdateProgress 10; UpdateProgress 20] ++
    map (fun j => UpdateProgress (sheet_progress j n))
        (seqZ 0 (Z.of_nat (length done) + 1)) ++
    [HandleParsingError ("Excel解析失败: " +:+ msg)].
Proof.
  intros Hread Hnames Hconv Hbad n.
  unfold parseLargeFile, parseLargeFile_in. simpl createParserWorker. cbv iota.
  change ("parse-" +:+ "xlsx") with "parse-xlsx".
  rewrite parseXlsx_view, Hread. cbv zeta. fold n. rewrite Hnames.
  destruct (worker_loop_failure workbook n done htmls bad rest msg Hconv Hbad 0 (xlsx_header n))
    as [-> ->].
  reflexivity.
Qed.

(** X7. A workbook without worksheets is not an error: on both executors
    the page shows 10, 20 and 100 and receives the header for 0 worksheets
    in an otherwise empty wrapper. *)
Theorem empty_workbook_is_rendered
    (platform : WorkerPlatform) (arrayBuffer : ArrayBuffer)
    (workbook : Workbook Worksheet) :
  createParserWorker platform = Some (Normal tt) \/ createParserWorker platform = None ->
  XLSX_read arrayBuffer = Normal workbook ->
  SheetNames workbook = [] ->
  parseLargeFile platform arrayBuffer "xlsx" =
    [UpdateProgress 10; UpdateProgress 20; UpdateProgress 100;
     RenderParsedContent (xlsx_header 0 +:+ "</div>")].
Proof.
  intros Hplat Hread Hnames. unfold parseLargeFile, parseLargeFile_in.
  destruct Hplat as [-> | ->].
  - change ("parse-" +:+ "xlsx") with "parse-xlsx".
    rewrite parseXlsx_view, Hread, Hnames. reflexivity.
  - rewrite fallback_xlsx, parseXlsxInChunks_trace, parseXlsxInChunks_outcome, Hread, Hnames.
    reflexivity.
Qed.

(** X8. A payload that the spreadsheet parser rejects: the page shows 10
    and then the error, with the prefix on the worker and bare on the main
    thread; 20 is never shown. *)
Theorem unreadable_workbook_is_reported (arrayBuffer : ArrayBuffer) (msg : string) :
  XLSX_read arrayBuffer = Throw msg ->
  parseLargeFile (Started (Normal tt)) arrayBuffer "xlsx" =
    [UpdateProgress 10; HandleParsingError ("Excel解析失败: " +:+ msg)] /\
  parseLargeFile Unsupported arrayBuffer "xlsx" =
    [UpdateProgress 10; HandleParsingError msg].
Proof.
  intros Hread. unfold parseLargeFile, parseLargeFile_in. simpl createParserWorker. cbv iota.
  change ("parse-" +:+ "xlsx") with "parse-xlsx".
  rewrite parseXlsx_view, fallback_xlsx, parseXlsxInChunks_trace, parseXlsxInChunks_outcome, Hread.
  split; reflexivity.
Qed.

(** X9. The run of a presentation on the worker does not depend on the
    number of slides: 10 and 30 are shown before parsing; when the parser
    throws, the error follows with its prefix; otherwise 60 and 100 are
    shown and the result is the header, one block per slide in order, and
    the closing tag. *)
Theorem presentation_run (arrayBuffer : ArrayBuffer) :
  (forall presentation,
     PptxParser_parse arrayBuffer = Normal presentation ->
     parseLargeFile (Started (Normal tt)) arrayBuffer "pptx" =
       [UpdateProgress 10; UpdateProgress 30; UpdateProgress 60; UpdateProgress 100;
        RenderParsedContent
          (pptx_header (Z.of_nat (length (slides presentation))) +:+
           concat_strings (slide_blocks 0 (slides presentation)) +:+ "</div>")] /\
     length (slide_blocks 0 (slides presentation)) = length (slides presentation)) /\
  (forall msg,
     PptxParser_parse arrayBuffer = Throw msg ->
     parseLargeFile (Started (Normal tt)) arrayBuffer "pptx" =
       [UpdateProgress 10; UpdateProgress 30;
        HandleParsingError ("PowerPoint解析失败: " +:+ msg)]).
Proof.
  unfold parseLargeFile, parseLargeFile_in. simpl createParserWorker. cbv iota.
  change ("parse-" +:+ "pptx") with "parse-pptx". rewrite parsePptx_view.
  split.
  - intros presentation ->. split.
    + rewrite slides_forEach_blocks, append_assoc. reflexivity.
    + generalize 0. induction (slides presentation) as [|s l IH]; intros i;
        [reflexivity|]. simpl. f_equal. apply IH.
  - intros msg ->. reflexivity.
Qed.

(** X10. A document type other than [xlsx] and [pptx] (the comparison is
    exact, so [XLSX] is one) is refused at once on both executors: no
    percentage is shown and the parsers are not called; the worker names
    the message type, the main thread the document type. *)
Theorem unsupported_type_is_refused (arrayBuffer : ArrayBuffer) (docType : string) :
  docType <> "xlsx" -> docType <> "pptx" ->
  parseLargeFile (Started (Normal tt)) arrayBuffer docType =
    [HandleParsingError ("不支持的解析类型: parse-" +:+ docType)] /\
  parseLargeFile Unsupported arrayBuffer docType =
    [HandleParsingError ("不支持的文档类型: " +:+ docType)] /\
  parseLargeFile ConstructorThrows arrayBuffer docType =
    [HandleParsingError ("不支持的文档类型: " +:+ docType)].
Proof.
  intros Hx Hp.
  apply String.eqb_neq in Hx, Hp.
  unfold parseLargeFile, parseLargeFile_in. simpl createParserWorker. cbv iota.
  rewrite unsupported_view; [|exact Hx|exact Hp].
  rewrite fallback_unsupported by assumption.
  repeat split; reflexivity.
Qed.

End Engine.

(** The workbook whose second worksheet fails: 10, 20, the percentages of
    the first two worksheets, then the error; the third is not visited. *)
Lemma failing_worksheet_aborts_witness :
  parseLargeFile (Started (Normal tt)) Samples.broken "xlsx" =
    [UpdateProgress 10; UpdateProgress 20; UpdateProgress 20; UpdateProgress 40;
     HandleParsingError "Excel解析失败: Bad range"].
Proof.
  apply (failing_worksheet_aborts Samples.broken
           {| SheetNames := ["A"; "B"; "C"];
              Sheets := {[ "A" := Normal (Fixture.table "1");
                           "B" := Throw "Bad range";
                           "C" := Normal (Fixture.table "3") ]} |}
           ["A"] [Fixture.table "1"] "B" ["C"] "Bad range").
  - reflexivity.
  - reflexivity.
  - repeat constructor.
  - reflexivity.
Defined.

Lemma empty_workbook_is_rendered_witness :
  parseLargeFile Unsupported Samples.blank "xlsx" =
    [UpdateProgress 10; UpdateProgress 20; UpdateProgress 100;
     RenderParsedContent (xlsx_header 0 +:+ "</div>")] /\
  Js.occurrences "worksheet-container" (xlsx_header 0 +:+ "</div>") = 0%nat.
Proof.
  split; [|vm_compute; reflexivity].
  apply (empty_workbook_is_rendered Unsupported Samples.blank
           {| SheetNames := []; Sheets := ∅ |}).
  - right. reflexivity.
  - reflexivity.
  - reflexivity.
Defined.

Lemma unreadable_workbook_is_reported_witness :
  parseLargeFile (Started (Normal tt)) (Fixture.Corrupt "bad zip") "xlsx" =
    [UpdateProgress 10; HandleParsingError "Excel解析失败: bad zip"] /\
  parseLargeFile Unsupported (Fixture.Corrupt "bad zip") "xlsx" =
    [UpdateProgress 10; HandleParsingError "bad zip"].
Proof. apply (unreadable_workbook_is_reported (Fixture.Corrupt "bad zip") "bad zip"). reflexivity. Defined.

Lemma presentation_run_witness :
  progress_values (parseLargeFile (Started (Normal tt)) Fixture.deck "pptx") =
    [10; 30; 60; 100] /\
  parseLargeFile (Started (Normal tt)) (Fixture.Corrupt "bad zip") "pptx" =
    [UpdateProgress 10; UpdateProgress 30; HandleParsingError "PowerPoint解析失败: bad zip"].
Proof.
  split.
  - destruct (presentation_run Fixture.deck) as [H _].
    destruct (H _ eq_refl) as [-> _]. reflexivity.
  - destruct (presentation_run (Fixture.Corrupt "bad zip")) as [_ H].
    apply (H "bad zip"). reflexivity.
Defined.

Lemma unsupported_type_is_refused_witness :
  parseLargeFile (Started (Normal tt)) Fixture.abc "XLSX" =
    [HandleParsingError "不支持的解析类型: parse-XLSX"] /\
  parseLargeFile Unsupported Fixture.abc "XLSX" =
    [HandleParsingError "不支持的文档类型: XLSX"].
Proof.
  destruct (unsupported_type_is_refused Fixture.abc "XLSX") as (H1 & H2 & _);
    [discriminate|discriminate|].
  split; [exact H1|exact H2].
Defined.

(** ** The protocol of the worker *)

Lemma posted_app (a b : list WorkerEffect) : posted (a ++ b) = posted a ++ posted b.
Proof. apply omap_app. Qed.

Lemma pauses_app (a b : list WorkerEffect) : pauses (a ++ b) = (pauses a + pauses b)%nat.
Proof. unfold pauses. rewrite List.filter_app, length_app. reflexivity. Qed.

Section Protocol.
Context {ArrayBuffer Worksheet : Type} `{!Parsers ArrayBuffer Worksheet}.

Lemma loop_posts_progress (workbook : Workbook Worksheet) n names :
  forall i htmlContent,
    Forall (fun m => is_terminal_message m = false)
      (posted (trace_of (parseXlsx_loop workbook n names i htmlContent))).
Proof.
  induction names as [|sheetName rest IH]; intros i htmlContent; [constructor|].
  simpl. destruct (sheet_to_html _) as [html|msg]; simpl.
  - specialize (IH (i + 1) (htmlContent +:+ worksheet_block i sheetName html)).
    destruct (parseXlsx_loop _ _ _ _ _) as [tr r]. simpl in *.
    constructor; [reflexivity|exact IH].
  - constructor; [reflexivity|constructor].
Qed.

(** X11. Whatever the message type, the payload and the behaviour of the
    parsers, the handler of the worker completes normally (no exception
    leaves it), and the messages it posts are progress messages followed
    by exactly one terminal message, a result or an error; the text of an
    error is never empty, so that the page's test [if (error)] sees it. *)
Theorem worker_protocol (type : string) (arrayBuffer : ArrayBuffer) :
  outcome_of (worker_onmessage type arrayBuffer) = Normal tt /\
  exists ms m,
    posted (trace_of (worker_onmessage type arrayBuffer)) = ms ++ [m] /\
    Forall (fun x => is_terminal_message x = false) ms /\
    is_terminal_message m = true /\
    (forall e, m = MsgError e -> Js.truthy e = true).
Proof.
  unfold worker_onmessage.
  destruct (String.eqb type "parse-xlsx").
  - unfold parseXlsx.
    destruct (XLSX_read arrayBuffer) as [workbook|msg]; simpl.
    + pose proof (loop_posts_progress workbook
                    (Z.of_nat (length (SheetNames workbook))) (SheetNames workbook) 0
                    (xlsx_header (Z.of_nat (length (SheetNames workbook))))) as HF.
      destruct (parseXlsx_loop _ _ _ _ _) as [tr [h|msg]]; simpl in *.
      * split; [reflexivity|].
        exists (MsgProgress 10 :: MsgProgress 20 :: posted tr ++ [MsgProgress 100]),
               (MsgXlsxResult (h +:+ "</div>")).
        split; [|split; [|split]].
        -- rewrite ?app_nil_r, posted_app. simpl. rewrite <- app_assoc. reflexivity.
        -- repeat (constructor; [reflexivity|]).
           apply Forall_app. split; [exact HF|]. constructor; [reflexivity|constructor].
        -- reflexivity.
        -- intros e E. discriminate E.
      * split; [reflexivity|].
        exists (MsgProgress 10 :: MsgProgress 20 :: posted tr),
               (MsgError (message_or_default ("Excel解析失败: " +:+ msg))).
        split; [|split; [|split]].
        -- rewrite ?app_nil_r, posted_app. simpl. rewrite ?app_nil_r. reflexivity.
        -- repeat (constructor; [reflexivity|]). exact HF.
        -- reflexivity.
        -- intros e E. injection E as <-. reflexivity.
    + split; [reflexivity|].
      exists [MsgProgress 10], (MsgError (message_or_default ("Excel解析失败: " +:+ msg))).
      split; [reflexivity|]. split; [repeat constructor|]. split; [reflexivity|].
      intros e E. injection E as <-. reflexivity.
  - destruct (String.eqb type "parse-pptx").
    + unfold parsePptx.
      destruct (PptxParser_parse arrayBuffer) as [presentation|msg]; simpl.
      * split; [reflexivity|].
        eexists [MsgProgress 10; MsgProgress 30; MsgProgress 60; MsgProgress 100], _.
        split; [reflexivity|]. split; [repeat constructor|]. split; [reflexivity|].
        intros e E. discriminate E.
      * split; [reflexivity|].
        exists [MsgProgress 10; MsgProgress 30],
               (MsgError (message_or_default ("PowerPoint解析失败: " +:+ msg))).
        split; [reflexivity|]. split; [repeat constructor|]. split; [reflexivity|].
        intros e E. injection E as <-. reflexivity.
    + simpl. split; [reflexivity|].
      exists [], (MsgError (message_or_default ("不支持的解析类型: " +:+ type))).
      split; [reflexivity|]. split; [constructor|]. split; [reflexivity|].
      intros e E. injection E as <-. reflexivity.
Qed.

Lemma worker_loop_pauses (workbook : Workbook Worksheet) n names htmls :
  converts_to workbook names htmls ->
  forall i htmlContent,
    pauses (trace_of (parseXlsx_loop workbook n names i htmlContent)) = length names.
Proof.
  induction 1 as [|sheetName html names htmls Hc _ IH]; intros i htmlContent;
    [reflexivity|].
  simpl. rewrite Hc. simpl.
  specialize (IH (i + 1) (htmlContent +:+ worksheet_block i sheetName html)).
  destruct (parseXlsx_loop _ _ _ _ _) as [tr r]. simpl in *.
  unfold pauses in *. simpl. f_equal. exact IH.
Qed.

(** X12. On the worker, a spreadsheet whose worksheets all convert makes
    as many pauses of 10 milliseconds as it has worksheets, one after each
    worksheet. *)
Theorem worker_pauses_once_per_worksheet
    (arrayBuffer : ArrayBuffer) (workbook : Workbook Worksheet) (htmls : list string) :
  XLSX_read arrayBuffer = Normal workbook ->
  converts_to workbook (SheetNames workbook) htmls ->
  pauses (trace_of (worker_onmessage "parse-xlsx" arrayBuffer)) =
    length (SheetNames workbook) /\
  Forall (fun e => is_timer e = true -> e = SetTimeout 10)
    (trace_of (worker_onmessage "parse-xlsx" arrayBuffer)).
Proof.
  intros Hread Hconv. unfold worker_onmessage, parseXlsx.
  change (String.eqb "parse-xlsx" "parse-xlsx") with true. cbv iota.
  rewrite Hread. simpl.
  pose proof (worker_loop_pauses workbook (Z.of_nat (length (SheetNames workbook)))
                _ _ Hconv 0 (xlsx_header (Z.of_nat (length (SheetNames workbook))))) as HP.
  assert (HT : forall names i h,
             Forall (fun e => is_timer e = true -> e = SetTimeout 10)
               (trace_of (parseXlsx_loop workbook
                            (Z.of_nat (length (SheetNames workbook))) names i h))).
  { clear. induction names as [|s rest IH]; intros i h; [constructor|].
    simpl. destruct (sheet_to_html _) as [html|msg]; simpl.
    - specialize (IH (i + 1) (h +:+ worksheet_block i s html)).
      destruct (parseXlsx_loop _ _ _ _ _) as [tr r]. simpl in *.
      constructor; [discriminate|]. constructor; [reflexivity|exact IH].
    - constructor; [discriminate|constructor]. }
  specialize (HT (SheetNames workbook) 0
                (xlsx_header (Z.of_nat (length (SheetNames workbook))))).
  destruct (parseXlsx_loop _ _ _ _ _) as [tr [h|msg]]; simpl in *.
  - split.
    + rewrite ?app_nil_r. unfold pauses in *. simpl.
      rewrite List.filter_app, length_app. simpl. lia.
    + rewrite ?app_nil_r. constructor; [discriminate|]. constructor; [discriminate|].
      apply Forall_app. split; [exact HT|]. repeat (constructor; [discriminate|]). constructor.
  - split.
    + rewrite ?app_nil_r. unfold pauses in *. simpl.
      rewrite List.filter_app, length_app. simpl. lia.
    + rewrite ?app_nil_r. constructor; [discriminate|]. constructor; [discriminate|].
      apply Forall_app. split; [exact HT|]. repeat (constructor; [discriminate|]). constructor.
Qed.

End Protocol.

(** A message of an unknown type: the handler completes normally and posts
    one error. *)
Lemma worker_protocol_witness :
  outcome_of (worker_onmessage "parse-docx" Fixture.abc) = Normal tt /\
  posted (trace_of (worker_onmessage "parse-docx" Fixture.abc)) =
    [MsgError "不支持的解析类型: parse-docx"] /\
  Js.truthy "不支持的解析类型: parse-docx" = true.
Proof.
  destruct (worker_protocol "parse-docx" Fixture.abc) as (H1 & ms & m & Hp & _ & _ & Ht).
  split; [exact H1|]. split; [vm_compute; reflexivity|].
  assert (E : posted (trace_of (worker_onmessage "parse-docx" Fixture.abc)) =
              [] ++ [MsgError "不支持的解析类型: parse-docx"]) by (vm_compute; reflexivity).
  rewrite E in Hp. apply app_inj_tail in Hp as [_ Hm].
  apply Ht. symmetry. exact Hm.
Defined.

Lemma worker_pauses_once_per_worksheet_witness :
  pauses (trace_of (worker_onmessage "parse-xlsx" Fixture.abc)) = 3%nat.
Proof.
  apply (worker_pauses_once_per_worksheet Fixture.abc
           {| SheetNames := ["A"; "B"; "C"];
              Sheets := {[ "A" := Normal (Fixture.table "1");
                           "B" := Normal (Fixture.table "2");
                           "C" := Normal (Fixture.table "3") ]} |}
           [Fixture.table "1"; Fixture.table "2"; Fixture.table "3"]).
  - reflexivity.
  - repeat constructor.
Defined.

(** The main-thread run of the workbook A, B, C is suspended three times. *)
Lemma fallback_spreadsheet_yields_witness :
  yields (parseLargeFile Unsupported Fixture.abc "xlsx") = 3%nat.
Proof.
  apply (fallback_spreadsheet_yields Unsupported Fixture.abc
           {| SheetNames := ["A"; "B"; "C"];
              Sheets := {[ "A" := Normal (Fixture.table "1");
                           "B" := Normal (Fixture.table "2");
                           "C" := Normal (Fixture.table "3") ]} |}
           [Fixture.table "1"; Fixture.table "2"; Fixture.table "3"]).
  - reflexivity.
  - reflexivity.
  - repeat constructor.
Defined.

(** ** The windowed renderer, frame by frame *)

Module RendererMore.
Import Renderer RendererFacts.

(** X14. The index range of a frame is exactly the set of rows of 10
    pixels that meet the viewport widened by the buffer on both sides: row
    [j] (pixels [10 j] to [10 j + 10]) is in [[start, end)] if and only if
    it ends after [scrollTop - 200] and begins before
    [scrollTop + viewportHeight + 200]. *)
Theorem index_range_is_buffered_viewport (viewportHeight scrollTop j : Z) :
  0 <= j ->
  (start_index scrollTop <= j < end_index viewportHeight scrollTop <->
   scrollTop - buffer < 10 * (j + 1) /\ 10 * j < scrollTop + viewportHeight + buffer).
Proof.
  intros Hj. unfold start_index, end_index, floor_div10, ceil_div10, buffer.
  split; intros H; Z.div_mod_to_equations; lia.
Qed.

Lemma index_range_is_buffered_viewport_witness :
  start_index 1000 = 80 /\ end_index 600 1000 = 180 /\
  (start_index 1000 <= 80 < end_index 600 1000) /\
  ~ (start_index 1000 <= 79 < end_index 600 1000).
Proof.
  split; [reflexivity|]. split; [reflexivity|]. split.
  - apply (index_range_is_buffered_viewport 600 1000 80); [lia|]. unfold buffer. lia.
  - intros H. apply (index_range_is_buffered_viewport 600 1000 79) in H; [|lia].
    unfold buffer in H. lia.
Defined.

Section History.
Context {Node : Type}.
Variable lay : Layout Node.

Lemma run_snoc frames scrollTop (st : State Node) :
  run lay (frames ++ [scrollTop]) st = renderVisibleContent lay scrollTop (run lay frames st).
Proof. unfold run. rewrite fold_left_app. reflexivity. Qed.

Lemma currentStart_after_frame scrollTop (st : State Node) :
  currentStart (renderVisibleContent lay scrollTop st) = start_index scrollTop.
Proof.
  destruct (Z.eq_dec (start_index scrollTop) (currentStart st)) as [E|NE].
  - rewrite same_start_no_render by exact E. symmetry. exact E.
  - rewrite new_start_renders by exact NE. reflexivity.
Qed.

Lemma clones_sublist (allElements : list Node) start end_ :
  clones allElements start end_ `sublist_of` allElements.
Proof.
  unfold clones. etransitivity; [apply sublist_take|apply sublist_drop].
Qed.

(** X15. What is on screen after any sequence of frames.  Either nothing
    was rendered yet and every frame so far had start index 0, or the
    slice is the one cloned at an earlier frame with the same start index
    as the last frame: its extent dates from that frame, and it is moved
    down by 10 pixels per index.  In both cases [currentStart] is the
    start index of the last frame, and the slice is a part of the
    top-level nodes in document order. *)
Theorem slice_dates_from_a_frame (frames : list Z) :
  let st := run lay frames initial in
  ((st = initial /\ Forall (fun s => start_index s = 0) frames) \/
   (exists s,
      In s frames /\
      start_index s = currentStart st /\
      slice st = clones (children lay) (start_index s) (end_index (clientHeight lay) s) /\
      translateY st = Some (currentStart st * 10))) /\
  (forall s, last frames = Some s -> currentStart st = start_index s) /\
  slice st `sublist_of` children lay.
Proof.
  induction frames as [|scrollTop frames IH] using rev_ind.
  - simpl. split; [left; split; [reflexivity|constructor]|].
    split; [discriminate|]. apply sublist_nil_l.
  - cbv zeta in *. rewrite run_snoc.
    destruct IH as (Hist & _ & Hsub).
    split; [|split].
    + destruct (Z.eq_dec (start_index scrollTop) (currentStart (run lay frames initial)))
        as [E|NE].
      * rewrite same_start_no_render by exact E.
        destruct Hist as [[Hi Hall]|(s & Hin & Hs & Hsl & Htr)].
        -- left. split; [exact Hi|]. apply Forall_app. split; [exact Hall|].
           constructor; [|constructor]. rewrite E, Hi. reflexivity.
        -- right. exists s. split; [apply in_or_app; left; exact Hin|]. auto.
      * right. exists scrollTop. rewrite new_start_renders by exact NE. simpl.
        split; [apply in_or_app; right; left; reflexivity|]. auto.
    + intros s Hl. rewrite last_snoc in Hl. injection Hl as <-.
      apply currentStart_after_frame.
    + destruct (Z.eq_dec (start_index scrollTop) (currentStart (run lay frames initial)))
        as [E|NE].
      * rewrite same_start_no_render by exact E. exact Hsub.
      * rewrite new_start_renders by exact NE. simpl. apply clones_sublist.
Qed.

End History.

(** Offsets 300, 305 and 309 share the start index 10: the slice on screen
    after them is the one cloned at 300, with the end index of 300. *)
Lemma slice_dates_from_a_frame_witness :
  let st := run Fixture.long_layout [300; 305; 309] initial in
  currentStart st = start_index 309 /\
  end_index 600 300 = 110 /\ end_index 600 309 = 111 /\
  Z.of_nat (length (slice st)) = 100.
Proof.
  intros st.
  destruct (slice_dates_from_a_frame Fixture.long_layout [300; 305; 309]) as (_ & H & _).
  split; [apply H; reflexivity|].
  split; [reflexivity|]. split; [reflexivity|]. vm_compute. reflexivity.
Defined.

End RendererMore.

(** ** Deferred images *)

Module LazyFacts.
Import LazyImages.

Lemma elem_of_deferred_from (imgs : list Image) : forall k j,
  j ∈ deferred_from k imgs <->
  exists i img url, j = (k + i)%nat /\ imgs !! i = Some img /\ data_src img = Some url.
Proof.
  induction imgs as [|img rest IH]; intros k j; simpl.
  - split; [intros H; inversion H|intros (i & x & url & _ & H & _); discriminate H].
  - destruct (data_src img) as [url|] eqn:E.
    + rewrite elem_of_cons, IH. split.
      * intros [->|(i & x & u & -> & Hl & Hd)].
        -- exists 0%nat, img, url. split; [lia|]. split; [reflexivity|exact E].
        -- exists (S i), x, u. split; [lia|]. split; assumption.
      * intros ([|i] & x & u & -> & Hl & Hd).
        -- left. lia.
        -- right. exists i, x, u. split; [lia|]. split; assumption.
    + rewrite IH. split.
      * intros (i & x & u & -> & Hl & Hd).
        exists (S i), x, u. split; [lia|]. split; assumption.
      * intros ([|i] & x & u & -> & Hl & Hd).
        -- simpl in Hl. injection Hl as <-. congruence.
        -- exists i, x, u. split; [lia|]. split; assumption.
Qed.

Lemma elem_of_deferred (imgs : list Image) j :
  j ∈ deferred imgs <->
  exists img url, imgs !! j = Some img /\ data_src img = Some url.
Proof.
  unfold deferred. rewrite elem_of_deferred_from. split.
  - intros (i & img & url & -> & H). exists img, url. exact H.
  - intros (img & url & H). exists j, img, url. split; [reflexivity|exact H].
Qed.

(** X16. [lazyLoadImages] observes exactly the images of the container
    that carry a [data-src] attribute, and creates no observer when there
    is none. *)
Theorem lazyLoadImages_observes_deferred (container : list Image) :
  (lazyLoadImages container = None <->
   Forall (fun img => data_src img = None) container) /\
  (forall targets i,
     lazyLoadImages container = Some targets ->
     (i ∈ targets <->
      exists img url, container !! i = Some img /\ data_src img = Some url)).
Proof.
  split.
  - unfold lazyLoadImages. split.
    + intros H. apply Forall_forall. intros img Hin.
      apply list_elem_of_lookup in Hin as [i Hi].
      destruct (data_src img) as [url|] eqn:E; [|reflexivity].
      assert (Hd : i ∈ deferred container) by (apply elem_of_deferred; eauto).
      destruct (deferred container); [inversion Hd|discriminate H].
    + intros HF. destruct (deferred container) as [|j l] eqn:E; [reflexivity|].
      exfalso. assert (Hd : j ∈ deferred container) by (rewrite E; left).
      apply elem_of_deferred in Hd as (img & url & Hl & Hu).
      rewrite Forall_forall in HF.
      assert (data_src img = None) by (apply HF; eapply list_elem_of_lookup_2; exact Hl).
      congruence.
  - intros targets i H. unfold lazyLoadImages in H.
    rewrite <- elem_of_deferred.
    destruct (deferred container) as [|j l]; [discriminate H|].
    injection H as <-.
    rewrite elem_of_union, elem_of_singleton, elem_of_list_to_set, elem_of_cons. reflexivity.
Qed.

Lemma lazyLoadImages_observes_deferred_witness :
  lazyLoadImages Samples.gallery = Some {[ 0%nat; 2%nat ]} /\
  (2%nat ∈ ({[ 0%nat; 2%nat ]} : gset nat)) /\
  lazyLoadImages [ {| src := Some "logo.png"; data_src := None |} ] = None.
Proof.
  destruct (lazyLoadImages_observes_deferred Samples.gallery) as [_ H].
  destruct (lazyLoadImages_observes_deferred [ {| src := Some "logo.png"; data_src := None |} ])
    as [H0 _].
  split; [vm_compute; reflexivity|]. split.
  - apply (H {[ 0%nat; 2%nat ]} 2%nat); [vm_compute; reflexivity|].
    exists {| src := None; data_src := Some "b.png" |}, "b.png". split; reflexivity.
  - apply H0. repeat constructor.
Defined.

Lemma callback_snoc entries entry st :
  callback (entries ++ [entry]) st = on_entry (callback entries st) entry.
Proof. unfold callback. rewrite fold_left_app. reflexivity. Qed.

Lemma intersecting_snoc entries entry :
  intersecting (entries ++ [entry]) =
  intersecting entries ++ (if isIntersecting entry then [target entry] else []).
Proof.
  unfold intersecting. rewrite List.filter_app, fmap_app. simpl.
  destruct (isIntersecting entry); reflexivity.
Qed.

(** X17. What a batch of entries does.  The observer stops observing
    exactly the targets of the intersecting entries; an image that is not
    such a target keeps its attributes; the target of an intersecting
    entry has lost its [data-src]; and when the intersecting targets of
    the batch are distinct, each of them has received as [src] the value
    its [data-src] had. *)
Theorem callback_loads_intersecting (entries : list Entry) (st : State) :
  observed (callback entries st) = observed st ∖ list_to_set (intersecting entries) /\
  (forall i, i ∉ intersecting entries ->
     images (callback entries st) !! i = images st !! i) /\
  (forall i img, i ∈ intersecting entries ->
     images (callback entries st) !! i = Some img -> data_src img = None) /\
  (forall i img url,
     NoDup (intersecting entries) -> i ∈ intersecting entries ->
     images st !! i = Some img -> data_src img = Some url ->
     images (callback entries st) !! i = Some {| src := Some url; data_src := None |}).
Proof.
  induction entries as [|entry entries IH] using rev_ind.
  - split; [|split; [|split]].
    + apply set_eq. intros x. rewrite elem_of_difference. simpl.
      rewrite elem_of_empty. tauto.
    + reflexivity.
    + intros i img Hin. inversion Hin.
    + intros i img url _ Hin. inversion Hin.
  - destruct IH as (Hobs & Hkeep & Hgone & Hload).
    rewrite callback_snoc, intersecting_snoc. unfold on_entry.
    destruct (isIntersecting entry) eqn:Ei; [|rewrite !app_nil_r; auto].
    simpl. split; [|split; [|split]].
    + rewrite Hobs. apply set_eq. intros x.
      rewrite !elem_of_difference, !elem_of_list_to_set, elem_of_app,
        list_elem_of_singleton, elem_of_singleton. tauto.
    + intros i Hi. rewrite not_elem_of_app, list_elem_of_singleton in Hi.
      destruct Hi as [Hi Hne].
      rewrite list_lookup_alter_ne by congruence. apply Hkeep, Hi.
    + intros i img Hin Hl. rewrite elem_of_app, list_elem_of_singleton in Hin.
      destruct (decide (i = target entry)) as [->|Hne].
      * rewrite list_lookup_alter in Hl.
        destruct (decide (target entry = target entry)); [|congruence].
        destruct (images (callback entries st) !! target entry); [|discriminate Hl].
        injection Hl as <-. reflexivity.
      * rewrite list_lookup_alter_ne in Hl by congruence.
        destruct Hin as [Hin|Hin]; [|congruence]. eapply Hgone; eassumption.
    + intros i img url Hnd Hin Hl Hu.
      apply NoDup_app in Hnd as (Hnd1 & Hdisj & _).
      rewrite elem_of_app, list_elem_of_singleton in Hin.
      destruct (decide (i = target entry)) as [->|Hne].
      * assert (Hnot : target entry ∉ intersecting entries).
        { intros Hc. apply (Hdisj _ Hc). left. }
        rewrite list_lookup_alter.
        destruct (decide (target entry = target entry)); [|congruence].
        rewrite (Hkeep _ Hnot), Hl. simpl. unfold load. rewrite Hu. reflexivity.
      * rewrite list_lookup_alter_ne by congruence.
        destruct Hin as [Hin|Hin]; [|congruence].
        apply (Hload i img url Hnd1 Hin Hl Hu).
Qed.

(** The first image of the gallery enters the viewport, the third does
    not. *)
Lemma callback_loads_intersecting_witness :
  let st := {| images := Samples.gallery; observed := {[ 0%nat; 2%nat ]} |} in
  let batch := [ {| target := 0%nat; isIntersecting := true |};
                 {| target := 2%nat; isIntersecting := false |} ] in
  images (callback batch st) !! 0%nat = Some {| src := Some "a.png"; data_src := None |} /\
  images (callback batch st) !! 2%nat = Some {| src := None; data_src := Some "b.png" |}.
Proof.
  intros st batch.
  destruct (callback_loads_intersecting batch st) as (_ & Hkeep & _ & Hload).
  split.
  - apply (Hload 0%nat {| src := None; data_src := Some "a.png" |} "a.png").
    + apply NoDup_singleton.
    + apply list_elem_of_singleton. reflexivity.
    + reflexivity.
    + reflexivity.
  - rewrite Hkeep; [reflexivity|].
    intros H. apply list_elem_of_singleton in H. discriminate H.
Defined.

Lemma deferred_after_load (imgs : list Image) (t : nat) :
  list_to_set (deferred (alter load t imgs)) =@{gset nat}
  list_to_set (deferred imgs) ∖ {[ t ]}.
Proof.
  apply set_eq. intros j.
  rewrite elem_of_difference, !elem_of_list_to_set, !elem_of_deferred, elem_of_singleton.
  destruct (decide (j = t)) as [->|Hne].
  - split.
    + intros (img & url & Hl & Hu). exfalso.
      rewrite list_lookup_alter in Hl.
      destruct (decide (t = t)); [|congruence].
      destruct (imgs !! t); [|discriminate Hl]. injection Hl as <-. discriminate Hu.
    + intros [_ H]. congruence.
  - rewrite list_lookup_alter_ne by congruence. split; [intros H; split; [exact H|exact Hne]|].
    intros [H _]. exact H.
Qed.

(** X18. The observer and the attributes stay in step.  If the observed
    targets are the images that carry [data-src], as they are when
    [lazyLoadImages] returns, they still are after any batch of entries:
    an image is observed exactly as long as its source is deferred, and a
    later call of [lazyLoadImages] on the container picks up the images
    still observed and no image that was loaded. *)
Theorem observed_are_the_deferred (entries : list Entry) (st : State) :
  observed st = list_to_set (deferred (images st)) ->
  observed (callback entries st) = list_to_set (deferred (images (callback entries st))).
Proof.
  intros H. induction entries as [|entry entries IH] using rev_ind; [exact H|].
  rewrite callback_snoc. unfold on_entry.
  destruct (isIntersecting entry); [|exact IH].
  simpl. rewrite deferred_after_load, IH. reflexivity.
Qed.

Lemma observed_are_the_deferred_witness :
  let st := {| images := Samples.gallery; observed := {[ 0%nat; 2%nat ]} |} in
  let batch := [ {| target := 0%nat; isIntersecting := true |} ] in
  observed (callback batch st) = list_to_set (deferred (images (callback batch st))) /\
  lazyLoadImages (images (callback batch st)) = Some {[ 2%nat ]}.
Proof.
  intros st batch. split.
  - apply (observed_are_the_deferred batch st). vm_compute. reflexivity.
  - vm_compute. reflexivity.
Defined.

End LazyFacts.

(** ** Text cannot add markup to a presentation *)

Lemma count_char_app c a b :
  count_char c (a +:+ b) = (count_char c a + count_char c b)%nat.
Proof.
  induction a as [|x a IH]; [reflexivity|].
  change (String x a +:+ b) with (String x (a +:+ b)). simpl. rewrite IH. lia.
Qed.

Lemma count_char_absent c s : Js.has_char c s = false -> count_char c s = 0%nat.
Proof.
  induction s as [|x s IH]; [reflexivity|]. simpl.
  intros [Hx Hs]%orb_false_iff. rewrite Hx, (IH Hs). reflexivity.
Qed.

Lemma count_char_escapeHtml c s : markup_char c -> count_char c (escapeHtml s) = 0%nat.
Proof. intros Hc. apply count_char_absent, escapeHtml_no_markup, Hc. Qed.

Lemma count_char_run c t :
  markup_char c ->
  count_char c (run_html t) =
  count_char c (run_html {| level := level t; content := "" |}).
Proof.
  intros Hc. unfold run_html. simpl level. simpl content.
  rewrite !count_char_app, !(count_char_escapeHtml c) by exact Hc. reflexivity.
Qed.

Lemma count_char_runs c runs : markup_char c -> forall acc acc',
  count_char c acc = count_char c acc' ->
  count_char c (fold_left (fun htmlContent t => htmlContent +:+ run_html t) runs acc) =
  count_char c (fold_left (fun htmlContent t => htmlContent +:+ run_html t)
                  (map (fun t => {| level := level t; content := "" |}) runs) acc').
Proof.
  intros Hc. induction runs as [|t runs IH]; intros acc acc' H; [exact H|].
  simpl. apply IH. rewrite !count_char_app, H, (count_char_run c t Hc). reflexivity.
Qed.

Lemma has_runs_map (runs : list TextRun) f : has_runs (map f runs) = has_runs runs.
Proof. unfold has_runs. rewrite length_map. reflexivity. Qed.

Lemma count_char_slide c index slide :
  markup_char c ->
  count_char c (slide_html index slide) =
  count_char c (slide_html index
                  {| text := option_map
                               (map (fun t => {| level := level t; content := "" |}))
                               (text slide) |}).
Proof.
  intros Hc. unfold slide_html, slide_body. simpl text.
  rewrite !count_char_app. f_equal. f_equal.
  destruct (text slide) as [runs|]; [|reflexivity]. simpl option_map. cbv iota beta.
  rewrite has_runs_map. destruct (has_runs runs); [|reflexivity].
  rewrite !count_char_app. f_equal. f_equal.
  apply count_char_runs; [exact Hc|reflexivity].
Qed.

Lemma count_char_slides c l : markup_char c -> forall index acc acc',
  count_char c acc = count_char c acc' ->
  count_char c (slides_forEach l index acc) =
  count_char c (slides_forEach
                  (map (fun slide =>
                          {| text := option_map
                                       (map (fun t => {| level := level t; content := "" |}))
                                       (text slide) |}) l) index acc').
Proof.
  intros Hc. induction l as [|slide l IH]; intros index acc acc' H; [exact H|].
  simpl. apply IH. rewrite !count_char_app, H, (count_char_slide c index slide Hc).
  reflexivity.
Qed.

(** What the worker delivers for a presentation is [pptx_html]. *)
Lemma presentation_result_is_pptx_html
    {ArrayBuffer Worksheet : Type} `{!Parsers ArrayBuffer Worksheet}
    (arrayBuffer : ArrayBuffer) (presentation : Presentation) :
  PptxParser_parse arrayBuffer = Normal presentation ->
  results (parseLargeFile (Started (Normal tt)) arrayBuffer "pptx") =
    [RenderParsedContent (pptx_html presentation)].
Proof.
  intros H. unfold parseLargeFile, parseLargeFile_in. simpl createParserWorker. cbv iota.
  change ("parse-" +:+ "pptx") with "parse-pptx". rewrite parsePptx_view, H. reflexivity.
Qed.

(** X19. The text of the slides adds no markup to what [parsePptx]
    delivers: the markup of a presentation holds as many [<], as many [>],
    as many double quotes and as many single quotes as the markup of the
    same presentation with every text emptied. *)
Theorem slide_text_adds_no_markup (presentation : Presentation) (c : ascii) :
  In c ["<"; ">"; ascii_of_nat 34; "'"]%char ->
  count_char c (pptx_html presentation) =
  count_char c (pptx_html (without_text presentation)).
Proof.
  intros Hc. unfold pptx_html, without_text. simpl slides.
  rewrite !count_char_app, length_map. f_equal.
  apply count_char_slides; [exact Hc|reflexivity].
Qed.

Lemma slide_text_adds_no_markup_witness :
  let p := {| slides :=
                [ {| text := Some [ {| level := 0; content := "Q&A <live>" |};
                                    {| level := 2; content := "it's on" |} ] |};
                  {| text := Some [] |} ] |} in
  count_char "<" (pptx_html p) = count_char "<" (pptx_html (without_text p)) /\
  count_char "<" (pptx_html p) = 22%nat /\
  parseLargeFile (Started (Normal tt)) Fixture.deck "pptx" =
    [UpdateProgress 10; UpdateProgress 30; UpdateProgress 60; UpdateProgress 100;
     RenderParsedContent (pptx_html p)].
Proof.
  intros p. split; [|split].
  - apply (slide_text_adds_no_markup p "<"). left. reflexivity.
  - vm_compute. reflexivity.
  - vm_compute. reflexivity.
Defined.

(** ** Error messages reach the preview as they are *)

Section ErrorMarkup.
Context {ArrayBuffer Worksheet : Type} `{!Parsers ArrayBuffer Worksheet}.

(** X20. [handleParsingError] writes the message into the preview without
    escaping it.  For a document type that is neither [xlsx] nor [pptx],
    the markup written on the main thread is the error template around the
    refusal and the document type, and every character of the document
    type, [<] included, occurs in it. *)
Theorem unsupported_type_reaches_the_preview
    (arrayBuffer : ArrayBuffer) (docType : string) (c : ascii) :
  docType <> "xlsx" -> docType <> "pptx" ->
  Js.has_char c docType = true ->
  error_markups (parseLargeFile Unsupported arrayBuffer docType) =
    [handleParsingError ("不支持的文档类型: " +:+ docType)] /\
  Js.has_char c (handleParsingError ("不支持的文档类型: " +:+ docType)) = true.
Proof.
  intros Hx Hp Hc.
  apply String.eqb_neq in Hx, Hp.
  unfold parseLargeFile, parseLargeFile_in. simpl createParserWorker. cbv iota.
  rewrite fallback_unsupported by assumption.
  split; [reflexivity|].
  unfold handleParsingError.
  rewrite !has_char_append, Hc. rewrite !orb_true_r. reflexivity.
Qed.

End ErrorMarkup.

Lemma unsupported_type_reaches_the_preview_witness :
  error_markups (parseLargeFile Unsupported Fixture.abc "<img>") =
    [handleParsingError "不支持的文档类型: <img>"] /\
  Js.includes "<p>错误: 不支持的文档类型: <img></p>"
    (handleParsingError "不支持的文档类型: <img>") = true.
Proof.
  destruct (unsupported_type_reaches_the_preview Fixture.abc "<img>" "<") as [H _];
    [discriminate|discriminate|reflexivity|].
  split; [exact H|vm_compute; reflexivity].
Defined.

(** ** Accuracy of the per-worksheet percentage *)

Module DoubleAccuracy.
Import Double DoubleFacts.

Local Abbreviation u := unit_roundoff.

Lemma rne_error q : (q - (1 # 2) <= inject_Z (rne q) <= q + (1 # 2))%Q.
Proof.
  pose proof (Qfloor_le q) as Hl. pose proof (Qlt_floor q) as Hu.
  rewrite inject_Z_plus in Hu. change (inject_Z 1) with 1%Q in Hu.
  assert (E1 : (inject_Z (Qfloor q + 1) == inject_Z (Qfloor q) + 1)%Q)
    by (rewrite inject_Z_plus; reflexivity).
  unfold rne.
  destruct (Qcompare_spec (q - inject_Z (Qfloor q)) (1 # 2)) as [H|H|H].
  - destruct (Z.even (Qfloor q)); [|rewrite E1]; lra.
  - lra.
  - rewrite E1. lra.
Qed.

Lemma half_pow2 e : (pow2 e * (1 # 2) == pow2 (e + 52) * u)%Q.
Proof.
  rewrite pow2_plus, <- (pow2_Z 52) by lia. unfold unit_roundoff.
  rewrite <- Qmult_assoc. apply Qmult_comp; [reflexivity|]. reflexivity.
Qed.

Lemma fl_pos_error a b :
  ((Zpos a # b) - (Zpos a # b) * u <= fl_pos a b <= (Zpos a # b) + (Zpos a # b) * u)%Q.
Proof.
  set (x := (Zpos a # b)%Q). set (e := exponent a b).
  destruct (exponent_spec a b) as [L _]. fold x e in L.
  pose proof (pow2_pos e) as Hp.
  pose proof (rne_error (x / pow2 e)) as [R1 R2].
  assert (Hx : (x / pow2 e * pow2 e == x)%Q).
  { unfold Qdiv. rewrite <- Qmult_assoc, (Qmult_comm (/ pow2 e)), Qmult_inv_r, Qmult_1_r;
      [reflexivity|]. intros E. rewrite E in Hp. discriminate Hp. }
  assert (Hu : (0 <= u)%Q) by discriminate.
  assert (Hhalf : (pow2 e * (1 # 2) <= x * u)%Q).
  { rewrite half_pow2. apply Qmult_le_compat_r; [exact L|exact Hu]. }
  unfold fl_pos. fold x e.
  apply (Qmult_le_compat_r _ _ (pow2 e)) in R1; [|apply Qlt_le_weak, Hp].
  apply (Qmult_le_compat_r _ _ (pow2 e)) in R2; [|apply Qlt_le_weak, Hp].
  set (r := (inject_Z (rne (x / pow2 e)) * pow2 e)%Q) in *.
  set (s := (x / pow2 e)%Q) in *.
  assert (E1 : ((s - (1 # 2)) * pow2 e == x - pow2 e * (1 # 2))%Q)
    by (rewrite <- Hx; ring).
  assert (E2 : ((s + (1 # 2)) * pow2 e == x + pow2 e * (1 # 2))%Q)
    by (rewrite <- Hx; ring).
  rewrite E1 in R1. rewrite E2 in R2. unfold unit_roundoff in *. split; lra.
Qed.

Lemma fl_error x : (0 <= x)%Q -> (x - x * u <= fl x <= x + x * u)%Q.
Proof.
  destruct x as [[|a|a] b]; intros H.
  - unfold fl, unit_roundoff. simpl. assert ((0 # b) == 0)%Q by reflexivity. split; lra.
  - apply fl_pos_error.
  - exfalso. revert H. unfold Qle. simpl. lia.
Qed.

(** The scaled quotient is within [121 u] of [60 i / n]. *)
Lemma scaled_error i n :
  0 <= i < n ->
  let q := (inject_Z i / inject_Z n)%Q in
  (60 * q - 121 * u <= mul (div (inject_Z i) (inject_Z n)) 60 <= 60 * q + 121 * u)%Q.
Proof.
  intros [Hi Hn] q.
  assert (Hq0 : (0 <= q)%Q) by (apply quotient_nonneg; lia).
  assert (Hq1 : (q <= 1)%Q) by (apply quotient_le_1; lia).
  unfold mul, div. fold q.
  destruct (fl_error q Hq0) as [D1 D2].
  set (d := fl q) in *.
  assert (Hd0 : (0 <= d)%Q) by (apply fl_nonneg; exact Hq0).
  assert (Hp0 : (0 <= d * 60)%Q) by lra.
  destruct (fl_error (d * 60) Hp0) as [P1 P2].
  unfold unit_roundoff in *. split; lra.
Qed.

Lemma quotient_times i n : 0 < n -> (inject_Z i / inject_Z n * inject_Z n == inject_Z i)%Q.
Proof.
  intros Hn. unfold Qdiv. rewrite <- Qmult_assoc, (Qmult_comm (/ _)), Qmult_inv_r, Qmult_1_r;
    [reflexivity|].
  intros E. assert (H : (0 < inject_Z n)%Q) by (rewrite <- (Zlt_Qlt 0); exact Hn).
  rewrite E in H. discriminate H.
Qed.

(** X21. The percentage shown before worksheet [i] of [n] is the linear
    value [20 + 60 i / n] rounded to the nearest integer, although it is
    computed in double precision: for up to [2^32] worksheets it lies
    between the value rounded with ties down and the value rounded with
    ties up, so it is the rounded value whenever [60 i / n] is not halfway
    between two integers. *)
Theorem sheet_progress_is_rounded_linear (i n : Z) :
  0 <= i < n -> n <= 2 ^ 32 ->
  20 + (120 * i + n - 1) / (2 * n) <= sheet_progress i n <= 20 + (120 * i + n) / (2 * n) /\
  ((120 * i + n) mod (2 * n) <> 0 ->
   sheet_progress i n = 20 + (120 * i + n) / (2 * n)).
Proof.
  intros Hin Hn.
  assert (Hmain :
    20 + (120 * i + n - 1) / (2 * n) <= sheet_progress i n <= 20 + (120 * i + n) / (2 * n)).
  { unfold sheet_progress, Math_round.
    destruct (scaled_error i n Hin) as [Y1 Y2]. cbv zeta in Y1, Y2.
    set (y := mul (div (inject_Z i) (inject_Z n)) 60) in *.
    set (q := (inject_Z i / inject_Z n)%Q) in *.
    assert (HN : (0 < inject_Z n)%Q) by (rewrite <- (Zlt_Qlt 0); lia).
    assert (Hqn : (q * inject_Z n == inject_Z i)%Q) by (apply quotient_times; lia).
    assert (Hdelta : (2 * inject_Z n * (121 * u) < 1)%Q).
    { assert (Hn' : (inject_Z n <= inject_Z (2 ^ 32))%Q) by (rewrite <- Zle_Qle; exact Hn).
      change (inject_Z (2 ^ 32)) with 4294967296%Q in Hn'. unfold unit_roundoff. lra. }
    set (U := (120 * i + n) / (2 * n)). set (L := (120 * i + n - 1) / (2 * n)).
    assert (HU : 120 * i + n + 1 <= 2 * n * (U + 1))
      by (unfold U; Z.div_mod_to_equations; nia).
    assert (HL : 2 * n * L + 1 <= 120 * i + n)
      by (unfold L; Z.div_mod_to_equations; nia).
    rewrite Zle_Qle in HU, HL.
    rewrite ?inject_Z_plus, ?inject_Z_mult, ?inject_Z_plus in HU.
    rewrite ?inject_Z_plus, ?inject_Z_mult, ?inject_Z_plus in HL.
    change (inject_Z 120) with 120%Q in *. change (inject_Z 2) with 2%Q in *.
    change (inject_Z 1) with 1%Q in *. change (inject_Z (-1)) with (-1)%Q in *.
    assert (Y1n : ((60 * q - 121 * u) * (2 * inject_Z n) <= y * (2 * inject_Z n))%Q)
      by (apply Qmult_le_compat_r; [exact Y1|lra]).
    assert (Y2n : (y * (2 * inject_Z n) <= (60 * q + 121 * u) * (2 * inject_Z n))%Q)
      by (apply Qmult_le_compat_r; [exact Y2|lra]).
    assert (E1 : ((60 * q - 121 * u) * (2 * inject_Z n) ==
                  120 * inject_Z i - 2 * inject_Z n * (121 * u))%Q)
      by (rewrite <- Hqn; ring).
    assert (E2 : ((60 * q + 121 * u) * (2 * inject_Z n) ==
                  120 * inject_Z i + 2 * inject_Z n * (121 * u))%Q)
      by (rewrite <- Hqn; ring).
    rewrite E1 in Y1n. rewrite E2 in Y2n. clear E1 E2 Y1 Y2 Hqn.
    unfold unit_roundoff in *.
    split.
    - assert (HLy : (inject_Z L <= y + (1 # 2))%Q).
      { apply (Qmult_le_r _ _ (2 * inject_Z n)); [lra|].
        assert (((y + (1 # 2)) * (2 * inject_Z n) ==
                 y * (2 * inject_Z n) + inject_Z n)%Q) as -> by ring.
        assert ((inject_Z L * (2 * inject_Z n) == 2 * inject_Z n * inject_Z L)%Q) as -> by ring.
        set (yn := (y * (2 * inject_Z n))%Q) in *.
        set (nL := (2 * inject_Z n * inject_Z L)%Q) in *.
        lra. }
      apply Qfloor_resp_le in HLy. rewrite Qfloor_Z in HLy. lia.
    - assert (HyU : (y + (1 # 2) < inject_Z (U + 1))%Q).
      { apply (Qmult_lt_r _ _ (2 * inject_Z n)); [lra|].
        assert (((y + (1 # 2)) * (2 * inject_Z n) ==
                 y * (2 * inject_Z n) + inject_Z n)%Q) as -> by ring.
        rewrite inject_Z_plus. change (inject_Z 1) with 1%Q.
        assert (((inject_Z U + 1) * (2 * inject_Z n) ==
                 2 * inject_Z n * (inject_Z U + 1))%Q) as -> by ring.
        set (yn := (y * (2 * inject_Z n))%Q) in *.
        set (nU := (2 * inject_Z n * (inject_Z U + 1))%Q) in *.
        lra. }
      pose proof (Qfloor_le (y + (1 # 2))) as Hf.
      assert (Hlt : (inject_Z (Qfloor (y + (1 # 2))) < inject_Z (U + 1))%Q)
        by (eapply Qle_lt_trans; [exact Hf|exact HyU]).
      rewrite <- Zlt_Qlt in Hlt. lia. }
  split; [exact Hmain|].
  intros Htie.
  assert ((120 * i + n - 1) / (2 * n) = (120 * i + n) / (2 * n))
    by (Z.div_mod_to_equations; nia).
  lia.
Qed.

Lemma sheet_progress_is_rounded_linear_witness :
  sheet_progress 2 7 = 20 + (120 * 2 + 7) / (2 * 7) /\ sheet_progress 2 7 = 37.
Proof.
  destruct (sheet_progress_is_rounded_linear 2 7) as [_ H]; [lia|lia|].
  split; [apply H; vm_compute; discriminate|vm_compute; reflexivity].
Defined.

End DoubleAccuracy.
